(** * The ETL pipeline of [etl_pipeline.py]: a shallow embedding

    A pandas [DataFrame] is modelled as the ordered list of its rows.  A
    cell that pandas holds as [NaN]/[None] is [None]; text cells are
    [string]s; numeric cells are IEEE doubles (Rocq's primitive floats),
    whose [nan] is the missing value of a numeric column.  Text is held as
    the bytes of its UTF-8 encoding: the character classes of the email
    pattern are classes of ASCII characters, which no byte of a character
    outside ASCII is in.  A text column has object dtype when it holds a
    string or has no row, as [read_csv] types it; a column of missing
    values alone is a column of floats. *)

From Stdlib Require Import ZArith Lia Bool Ascii String List Floats DecimalString.
From stdpp Require Import base decidable option gmap sets strings.
Import ListNotations.

Local Open Scope string_scope.
Local Open Scope list_scope.

(* ===================================================================== *)
(** ** Generic frame operations *)
(* ===================================================================== *)

Module Frame.

Section DropDuplicates.
Context {A K : Type} (eqb : K -> K -> bool) (key : A -> K).

(** [df.drop_duplicates(subset=key, keep='first')]: a row is kept when no
    earlier row of the frame carries an equal key.  [seen] holds the keys
    met so far. *)
Fixpoint drop_duplicates_from (seen : list K) (l : list A) : list A :=
  match l with
  | [] => []
  | x :: rest =>
      if existsb (eqb (key x)) seen
      then drop_duplicates_from seen rest
      else x :: drop_duplicates_from (key x :: seen) rest
  end.

Definition drop_duplicates (l : list A) : list A :=
  drop_duplicates_from [] l.
End DropDuplicates.

(** Equality of two cells of an object column, where [NaN] equals [NaN]. *)
Definition cell_eqb {K} `{EqDecision K} (a b : K) : bool := bool_decide (a = b).

End Frame.

(* ===================================================================== *)
(** ** Regular expressions, as [re.match] decides them *)
(* ===================================================================== *)

Module Regex.

Inductive regex : Type :=
| Void : regex
| Eps : regex
| Class : (ascii -> bool) -> regex
| Cat : regex -> regex -> regex
| Alt : regex -> regex -> regex
| Star : regex -> regex.

(** [r+] and [r{n,}] *)
Definition plus (r : regex) : regex := Cat r (Star r).

Fixpoint at_least (n : nat) (r : regex) : regex :=
  match n with
  | O => Star r
  | S m => Cat r (at_least m r)
  end.

Fixpoint nullable (r : regex) : bool :=
  match r with
  | Void => false
  | Eps => true
  | Class _ => false
  | Cat a b => nullable a && nullable b
  | Alt a b => nullable a || nullable b
  | Star _ => true
  end.

Fixpoint deriv (c : ascii) (r : regex) : regex :=
  match r with
  | Void => Void
  | Eps => Void
  | Class p => if p c then Eps else Void
  | Cat a b =>
      if nullable a then Alt (Cat (deriv c a) b) (deriv c b)
      else Cat (deriv c a) b
  | Alt a b => Alt (deriv c a) (deriv c b)
  | Star a => Cat (deriv c a) (Star a)
  end.

(** The whole of [s] is a word of [r]. *)
Fixpoint matches (r : regex) (s : list ascii) : bool :=
  match s with
  | [] => nullable r
  | c :: rest => matches (deriv c r) rest
  end.

(** The words of a regular expression. *)
Inductive lang : regex -> list ascii -> Prop :=
| lang_eps : lang Eps []
| lang_class p c : p c = true -> lang (Class p) [c]
| lang_cat a b s t : lang a s -> lang b t -> lang (Cat a b) (s ++ t)
| lang_alt_l a b s : lang a s -> lang (Alt a b) s
| lang_alt_r a b s : lang b s -> lang (Alt a b) s
| lang_star_nil a : lang (Star a) []
| lang_star_cons a c s t :
    lang a (c :: s) -> lang (Star a) t -> lang (Star a) (c :: s ++ t).

(** Split a list into its last element and what is before it. *)
Fixpoint unsnoc (s : list ascii) : option (list ascii * ascii) :=
  match s with
  | [] => None
  | c :: rest =>
      match unsnoc rest with
      | None => Some ([], c)
      | Some (p, l) => Some (c :: p, l)
      end
  end.

Definition newline : ascii := ascii_of_nat 10.

(** [re.match('^' body '$', s)]: [re.match] anchors at the start of [s]; the
    [$] of a pattern compiled without [re.MULTILINE] matches at the end of
    the string and also just before a newline that is the last character of
    the string. *)
Definition match_to_dollar (body : regex) (s : list ascii) : bool :=
  matches body s
  || match unsnoc s with
     | Some (p, l) => Ascii.eqb l newline && matches body p
     | None => false
     end.

End Regex.

(* ===================================================================== *)
(** ** Customers *)
(* ===================================================================== *)

Module Customers.
Import Frame Regex.

Record Customer : Type := mkCustomer {
  customer_id : option string;
  name : option string;
  email : option string
}.

(** The customers frame: its rows, and whether it has a [name] column.
    When the column is absent the [name] field of the rows is not read. *)
Record CustomerFrame : Type := mkCustomerFrame {
  has_name : bool;
  rows : list Customer
}.

Definition invalid_patterns : list string :=
  [ "invalid_email"; "user@.com"; "user@"; "@example.com";
    "user..name@example.com"; "user name@example.com"; "user@example..com";
    "user@.example.com"; "user@example.com."; "user@-example.com";
    "user@example-.com" ].

(** Whether the [email] column has object dtype, as [read_csv] types it: a
    column of missing values alone is a column of floats, on which the
    [.str] accessor raises; a column without rows, or with a string, is an
    object column. *)
Definition email_column_is_text (df : CustomerFrame) : bool :=
  match rows df with
  | [] => true
  | _ :: _ => existsb (fun r => bool_decide (email r <> None)) (rows df)
  end.

(** [Series.isin(values)] on one cell. *)
Definition isin (values : list string) (s : string) : bool :=
  existsb (String.eqb s) values.

Definition in_range (lo hi c : ascii) : bool :=
  (nat_of_ascii lo <=? nat_of_ascii c)%nat && (nat_of_ascii c <=? nat_of_ascii hi)%nat.

Definition is_letter (c : ascii) : bool :=
  in_range "a" "z" c || in_range "A" "Z" c.

Definition is_alnum (c : ascii) : bool :=
  is_letter c || in_range "0" "9" c.

(** [[a-zA-Z0-9._%+-]] *)
Definition local_char (c : ascii) : bool :=
  is_alnum c || Ascii.eqb c "." || Ascii.eqb c "_" || Ascii.eqb c "%"
  || Ascii.eqb c "+" || Ascii.eqb c "-".

(** [[a-zA-Z0-9.-]] *)
Definition domain_char (c : ascii) : bool :=
  is_alnum c || Ascii.eqb c "." || Ascii.eqb c "-".

Definition is_char (x c : ascii) : bool := Ascii.eqb c x.

(** The body of [email_pattern], between [^] and [$]:
    [[a-zA-Z0-9._%+-]+@[a-zA-Z0-9.-]+\.[a-zA-Z]{2,}] *)
Definition email_body : regex :=
  Cat (plus (Class local_char))
 (Cat (Class (is_char "@"))
 (Cat (plus (Class domain_char))
 (Cat (Class (is_char "."))
      (at_least 2 (Class is_letter))))).

(** [Series.str.match(email_pattern, na=False)] on one cell that holds a
    string. *)
Definition str_match_email (s : string) : bool :=
  match_to_dollar email_body (list_ascii_of_string s).

(** The three email filters of [transform_customers] on one cell:
    [dropna], the blacklist, and the pattern. *)
Definition email_ok (r : Customer) : bool :=
  match email r with
  | None => false
  | Some e => negb (isin invalid_patterns e) && str_match_email e
  end.

Definition dropna_email (l : list Customer) : list Customer :=
  List.filter (fun r => bool_decide (email r <> None)) l.

Definition drop_blacklisted (l : list Customer) : list Customer :=
  List.filter (fun r => match email r with
                        | Some e => negb (isin invalid_patterns e)
                        | None => true
                        end) l.

Definition keep_matching (l : list Customer) : list Customer :=
  List.filter (fun r => match email r with
                        | Some e => str_match_email e
                        | None => false
                        end) l.

(** The three filters together. *)
Definition valid_emails (l : list Customer) : list Customer :=
  keep_matching (drop_blacklisted (dropna_email l)).

(** [if 'name' not in df.columns: df['name'] = 'Unknown'] *)
Definition default_name (has : bool) (r : Customer) : Customer :=
  if has then r
  else mkCustomer (customer_id r) (Some "Unknown") (email r).

(** The transformer on a frame whose [email] column is of text; on another
    frame [.str.match] raises, which [Pipeline.transform_customers_step]
    carries. *)
Definition transform_customers (df : CustomerFrame) : CustomerFrame :=
  let l := dropna_email (rows df) in
  let l := drop_blacklisted l in
  let l := keep_matching l in
  let l := drop_duplicates cell_eqb email l in
  let l := drop_duplicates cell_eqb customer_id l in
  mkCustomerFrame true (map (default_name (has_name df)) l).

(** The syntactic pattern as the specification words it: a local part of
    one or more characters of the local class, an at sign, a domain of one
    or more characters of the domain class, a dot, and a top-level label of
    at least two letters. *)
Definition spec_email_pattern (s : list ascii) : Prop :=
  exists loc dom tld : list ascii,
    s = loc ++ "@"%char :: dom ++ "."%char :: tld
    /\ loc <> [] /\ forallb local_char loc = true
    /\ dom <> [] /\ forallb domain_char dom = true
    /\ (2 <= length tld)%nat /\ forallb is_letter tld = true.

End Customers.

(* ===================================================================== *)
(** ** What the pipeline takes from Python and pandas *)
(* ===================================================================== *)

Module Py.

(** The exceptions that the pipeline can meet. *)
Inductive exn : Type :=
| AttributeError (msg : string)
| IntegrityError (msg : string)
| OverflowError (msg : string)
| OSError (msg : string).

(** [str(e)] *)
Definition exn_message (e : exn) : string :=
  match e with
  | AttributeError m | IntegrityError m | OverflowError m | OSError m => m
  end.

Inductive result (A : Type) : Type :=
| Ok (a : A)
| Raised (e : exn).
Arguments Ok {A} a.
Arguments Raised {A} e.

(** [pandas.Timestamp]: the fields of its wall-clock time and its time
    zone, [None] for a naive timestamp.  Two labels are equal exactly when
    pandas takes the two zones for the same zone. *)
Record Timestamp : Type := mkTimestamp {
  year : Z;
  month : Z;
  day : Z;
  nanos_of_day : Z;
  zone : option string
}.

#[export] Instance Timestamp_eq_dec : EqDecision Timestamp.
Proof. solve_decision. Defined.

(** What the [.str] accessor raises on a column that is not of text. *)
Definition str_error : exn :=
  AttributeError "Can only use .str accessor with string values!".

(** A cell of a column that may hold numbers and text. *)
Inductive cell : Type :=
| Num (f : float)
| Str (s : string).

(** The parsers of pandas, which are not code of this repository:
    [pd.to_numeric(errors='coerce')] on a text cell, with [nan] for text
    that is not a number, and [pd.to_datetime(errors='coerce')] on a text
    cell, with [None] for [NaT]. *)
Class Pandas : Type := {
  parse_number : string -> float;
  parse_datetime : string -> option Timestamp
}.

(** [pd.to_numeric(column, errors='coerce')] on one cell. *)
Definition to_numeric `{Pandas} (c : cell) : float :=
  match c with
  | Num f => f
  | Str s => parse_number s
  end.

(** Equality of floats as [drop_duplicates] and [isin] see it: IEEE
    equality, and [nan] equal to [nan]. *)
Definition float_eqb (a b : float) : bool :=
  PrimFloat.eqb a b || (PrimFloat.is_nan a && PrimFloat.is_nan b).

Definition num_cell_eqb (a b : cell) : bool :=
  match a, b with
  | Num x, Num y => float_eqb x y
  | Str x, Str y => String.eqb x y
  | _, _ => false
  end.

(** The lower case of an ASCII character. *)
Definition lower_char (c : ascii) : ascii :=
  let n := nat_of_ascii c in
  if (65 <=? n)%nat && (n <=? 90)%nat then ascii_of_nat (n + 32) else c.

(** [str.lower()], on text held as the bytes of its UTF-8 encoding, as far
    as a comparison with ASCII text can tell.  ASCII letters are lowered,
    and so is the Kelvin sign (U+212A, bytes 226 132 170), the one
    character outside ASCII whose lower case is in ASCII ([k]).  The other
    characters outside ASCII are left as they are: Python lowers them to
    text that has a character outside ASCII as well. *)
Fixpoint str_lower (s : string) : string :=
  match s with
  | EmptyString => EmptyString
  | String c rest =>
      match rest with
      | String c1 (String c2 rest') =>
          if Ascii.eqb c "226" && Ascii.eqb c1 "132" && Ascii.eqb c2 "170"
          then String "k" (str_lower rest')
          else String (lower_char c) (str_lower rest)
      | _ => String (lower_char c) (str_lower rest)
      end
  end.

(** [str(n)] for a count. *)
Definition str_of_nat (n : nat) : string :=
  NilEmpty.string_of_uint (Nat.to_uint n).

(** [s], padded with zeros on the left to [width] characters. *)
Definition zero_pad (width : nat) (s : string) : string :=
  string_of_list_ascii (repeat "0"%char (width - String.length s)) ++ s.

Definition str_of_field (width : nat) (n : Z) : string :=
  zero_pad width (str_of_nat (Z.to_nat n)).



(** [Timestamp.strftime('%Y-%m-%d')] *)
Definition strftime_ymd (t : Timestamp) : string :=
  str_of_field 4 (year t) ++ "-" ++ str_of_field 2 (month t)
  ++ "-" ++ str_of_field 2 (day t).

End Py.

(* ===================================================================== *)
(** ** Products *)
(* ===================================================================== *)

Module Products.
Import Frame Py.

(** A raw product row, as extracted.  [product_id] is a whole number, as
    [generate_data.py] writes it; a file whose [product_id] column has a
    value that is not a whole number is not a frame of these rows. *)
Record RawProduct : Type := mkRawProduct {
  raw_product_id : option Z;
  raw_name : option string;
  raw_category : option string;
  raw_price : cell
}.

(** A product row after [transform_products]: the price is a number. *)
Record Product : Type := mkProduct {
  product_id : option Z;
  name : option string;
  category : option string;
  price : float
}.

Definition category_mapping : gmap string string :=
  {[ "electronics" := "Electronics";
     "ELECTRONICS" := "Electronics";
     "books" := "Books";
     "BOOKS" := "Books";
     "home" := "Home";
     "HOME" := "Home" ]}.

(** Whether the [category] column has object dtype, as [read_csv] types
    it (see [Customers.email_column_is_text]). *)
Definition category_column_is_text (df : list RawProduct) : bool :=
  match df with
  | [] => true
  | _ :: _ => existsb (fun r => bool_decide (raw_category r <> None)) df
  end.

(** [df['category'].str.lower().map(category_mapping).fillna(df['category'])]
    on one cell. *)
Definition standardize_category (c : option string) : option string :=
  match c with
  | None => None
  | Some s =>
      match category_mapping !! str_lower s with
      | Some canonical => Some canonical
      | None => Some s
      end
  end.

Definition standardize (r : RawProduct) : RawProduct :=
  mkRawProduct (raw_product_id r) (raw_name r)
               (standardize_category (raw_category r)) (raw_price r).

(** [df['price'] = pd.to_numeric(df['price'], errors='coerce')] *)
Definition coerce_price `{Pandas} (r : RawProduct) : Product :=
  mkProduct (raw_product_id r) (raw_name r) (raw_category r)
            (to_numeric (raw_price r)).

(** [(df['price'] > 0) & (df['price'] <= 10000)] *)
Definition price_in_range (p : float) : bool :=
  PrimFloat.ltb 0 p && PrimFloat.leb p 10000.

(** The transformer on a frame whose [category] column is of text; on
    another frame [.str.lower] raises, which
    [Pipeline.transform_products_step] carries. *)
Definition transform_products `{Pandas} (df : list RawProduct) : list Product :=
  let l := map standardize df in
  let l := drop_duplicates cell_eqb raw_product_id l in
  let l := drop_duplicates cell_eqb (fun r => (raw_name r, raw_category r)) l in
  let l := map coerce_price l in
  let l := List.filter (fun r => negb (PrimFloat.is_nan (price r))) l in
  List.filter (fun r => price_in_range (price r)) l.

End Products.

(* ===================================================================== *)
(** ** Transactions *)
(* ===================================================================== *)

Module Transactions.
Import Frame Py.

(** A raw transaction row, as extracted.  The keys are as
    [generate_data.py] writes them: [transaction_id] and [customer_id] are
    text, [product_id] is a whole number.  A file whose [customer_id]
    column [read_csv] types as numbers is not a frame of these rows. *)
Record RawTransaction : Type := mkRawTransaction {
  raw_transaction_id : option string;
  raw_customer_id : option string;
  raw_product_id : option Z;
  raw_amount : cell;
  raw_date : option string
}.

(** A row after [df['date'] = df['date'].apply(validate_date)]. *)
Record DatedTransaction : Type := mkDatedTransaction {
  dated_transaction_id : option string;
  dated_customer_id : option string;
  dated_product_id : option Z;
  dated_amount : cell;
  date : option Timestamp
}.

(** A row after [df['amount'] = pd.to_numeric(df['amount'], errors='coerce')]. *)
Record CoercedTransaction : Type := mkCoercedTransaction {
  coerced_transaction_id : option string;
  coerced_customer_id : option string;
  coerced_product_id : option Z;
  coerced_amount : float;
  coerced_date : option Timestamp
}.

(** A transaction row after [transform_transactions]. *)
Record Transaction : Type := mkTransaction {
  transaction_id : option string;
  customer_id : option string;
  product_id : option Z;
  amount : float;
  transaction_date : option string
}.

(** [pd.isna] on every cell of the row: [dropna(how='all')] drops the row
    when all hold. *)
Definition all_missing (r : RawTransaction) : bool :=
  match raw_transaction_id r, raw_customer_id r, raw_product_id r,
        raw_amount r, raw_date r with
  | None, None, None, Num f, None => PrimFloat.is_nan f
  | _, _, _, _, _ => false
  end.

Definition validate_date `{Pandas} (date_str : option string) : option Timestamp :=
  match date_str with
  | None => None
  | Some s =>
      if String.eqb s "" then None
      else
        match parse_datetime s with
        | None => None
        | Some parsed_date =>
            if ((year parsed_date <? 1900) || (year parsed_date >? 2100))%Z
            then None
            else Some parsed_date
        end
  end.

Definition apply_validate_date `{Pandas} (r : RawTransaction) : DatedTransaction :=
  mkDatedTransaction (raw_transaction_id r) (raw_customer_id r)
                     (raw_product_id r) (raw_amount r)
                     (validate_date (raw_date r)).

(** [df.dropna(subset=['date'])] *)
Definition dropna_date (l : list DatedTransaction) : list DatedTransaction :=
  List.filter (fun r => bool_decide (date r <> None)) l.

(** Equality of two rows under [drop_duplicates(keep='first')], which
    compares every column. *)
Definition row_eqb (a b : DatedTransaction) : bool :=
  cell_eqb (dated_transaction_id a) (dated_transaction_id b)
  && cell_eqb (dated_customer_id a) (dated_customer_id b)
  && cell_eqb (dated_product_id a) (dated_product_id b)
  && num_cell_eqb (dated_amount a) (dated_amount b)
  && cell_eqb (date a) (date b).

Definition coerce_amount `{Pandas} (r : DatedTransaction) : CoercedTransaction :=
  mkCoercedTransaction (dated_transaction_id r) (dated_customer_id r)
                       (dated_product_id r) (to_numeric (dated_amount r))
                       (date r).

(** [df.dropna(subset=['amount'])] *)
Definition dropna_amount (l : list CoercedTransaction) : list CoercedTransaction :=
  List.filter (fun r => negb (PrimFloat.is_nan (coerced_amount r))) l.

(** [(df['amount'] > 0) & (df['amount'] <= 10000)] *)
Definition amount_in_range (a : float) : bool :=
  PrimFloat.ltb 0 a && PrimFloat.leb a 10000.

Definition keep_amount_in_range (l : list CoercedTransaction)
  : list CoercedTransaction :=
  List.filter (fun r => amount_in_range (coerced_amount r)) l.

(** The rename of [date] to [transaction_date] and
    [dt.strftime('%Y-%m-%d')], which renders [NaT] as a missing value. *)
Definition render (r : CoercedTransaction) : Transaction :=
  mkTransaction (coerced_transaction_id r) (coerced_customer_id r)
                (coerced_product_id r) (coerced_amount r)
                (option_map strftime_ymd (coerced_date r)).

Definition dt_error : exn :=
  AttributeError "Can only use .dt accessor with datetimelike values".

(** The timestamps of the column that [apply] built. *)
Definition accepted_dates (applied : list DatedTransaction) : list Timestamp :=
  flat_map (fun r => match date r with Some t => [t] | None => [] end) applied.

(** Whether the column that [apply] built is a datetime column: it is when
    [validate_date] returned at least one [Timestamp] and all the
    timestamps it returned are of one time zone (or all naive).  A column
    of [None]s alone, an empty column, and a column that mixes time zones
    or naive and aware timestamps keep object dtype. *)
Definition is_datetime_column (applied : list DatedTransaction) : bool :=
  match accepted_dates applied with
  | [] => false
  | t :: others =>
      forallb (fun u => bool_decide (zone u = zone t)) others
  end.

Definition transform_transactions `{Pandas} (df : list RawTransaction)
  : result (list Transaction) :=
  let l := List.filter (fun r => negb (all_missing r)) df in
  let applied := map apply_validate_date l in
  let l := dropna_date applied in
  let l := drop_duplicates row_eqb (fun r => r) l in
  let l := drop_duplicates cell_eqb dated_transaction_id l in
  let l := map coerce_amount l in
  let l := dropna_amount l in
  let l := keep_amount_in_range l in
  (* [df['transaction_date'].dt] raises on a column of object dtype *)
  if is_datetime_column applied then Ok (map render l) else Raised dt_error.

End Transactions.

(* ===================================================================== *)
(** ** Referential integrity *)
(* ===================================================================== *)

Module Integrity.
Import Py.

Definition validate_referential_integrity
    (customers_df : list Customers.Customer)
    (products_df : list Products.Product)
    (transactions_df : list Transactions.Transaction)
  : list Transactions.Transaction :=
  let valid_customer_ids : gset (option string) :=
    list_to_set (map Customers.customer_id customers_df) in
  let valid_product_ids : gset (option Z) :=
    list_to_set (map Products.product_id products_df) in
  List.filter
    (fun t =>
       bool_decide (Transactions.customer_id t ∈ valid_customer_ids)
       && bool_decide (Transactions.product_id t ∈ valid_product_ids))
    transactions_df.

End Integrity.

(* ===================================================================== *)
(** ** The store *)
(* ===================================================================== *)

Module Store.
Import Py.

(** The rows of the three tables of [create_tables].  [created_at] is
    filled by the store and read by no statement of the pipeline; it is
    left out.  The keys [customer_id] and [transaction_id] are text and
    [product_id] is an integer, as [generate_data.py] writes them. *)
Record CustomerRow : Type := mkCustomerRow {
  c_customer_id : option string;      (* TEXT PRIMARY KEY: NULL is allowed *)
  c_name : string;                    (* TEXT NOT NULL *)
  c_email : string                    (* TEXT UNIQUE NOT NULL *)
}.

Record ProductRow : Type := mkProductRow {
  p_product_id : Z;                   (* INTEGER PRIMARY KEY: the rowid *)
  p_name : string;                    (* TEXT NOT NULL *)
  p_category : string;                (* TEXT NOT NULL *)
  p_price : float                     (* REAL NOT NULL *)
}.

Record TransactionRow : Type := mkTransactionRow {
  t_transaction_id : option string;   (* TEXT PRIMARY KEY: NULL is allowed *)
  t_customer_id : string;             (* TEXT NOT NULL *)
  t_product_id : Z;                   (* INTEGER NOT NULL *)
  t_amount : float;                   (* REAL NOT NULL *)
  t_transaction_date : string         (* DATE NOT NULL *)
}.

Record Tables : Type := mkTables {
  customers : list CustomerRow;
  products : list ProductRow;
  transactions : list TransactionRow
}.

Definition not_null (table column : string) : exn :=
  IntegrityError ("NOT NULL constraint failed: " ++ table ++ "." ++ column).

Definition unique (table column : string) : exn :=
  IntegrityError ("UNIQUE constraint failed: " ++ table ++ "." ++ column).

(** A key that is not NULL is already in the column. *)
Definition key_taken {K} `{EqDecision K} (k : option K) (col : list (option K)) : bool :=
  match k with
  | None => false
  | Some _ => bool_decide (k ∈ col)
  end.

(** [INSERT INTO customers (customer_id, name, email) VALUES (?, ?, ?)];
    a missing value is bound as NULL. *)
Definition insert_customer (tbl : list CustomerRow) (r : Customers.Customer)
  : result (list CustomerRow) :=
  match Customers.name r, Customers.email r with
  | None, _ => Raised (not_null "customers" "name")
  | _, None => Raised (not_null "customers" "email")
  | Some n, Some e =>
      if bool_decide (e ∈ map c_email tbl)
      then Raised (unique "customers" "email")
      else if key_taken (Customers.customer_id r) (map c_customer_id tbl)
      then Raised (unique "customers" "customer_id")
      else Ok (tbl ++ [mkCustomerRow (Customers.customer_id r) n e])
  end.

(** Whether an integer can be bound to a parameter of a statement: it is
    when it is a 64-bit signed integer. *)
Definition fits_int64 (i : Z) : bool :=
  ((- 2 ^ 63 <=? i) && (i <? 2 ^ 63))%Z.

Definition binds (i : option Z) : bool :=
  match i with
  | None => true
  | Some i => fits_int64 i
  end.

Definition overflow : exn :=
  OverflowError "Python int too large to convert to SQLite INTEGER".

(** The rowid that the store gives to a row inserted with a NULL
    [INTEGER PRIMARY KEY]: one more than the largest in the table, and 1 in
    an empty table. *)
Definition next_rowid (tbl : list ProductRow) : Z :=
  match map p_product_id tbl with
  | [] => 1
  | i :: ids => 1 + fold_right Z.max i ids
  end.

(** [INSERT INTO products (product_id, name, category, price)
    VALUES (?, ?, ?, ?)]: a [product_id] that is not a 64-bit integer
    cannot be bound, before the store sees the row. *)
Definition insert_product (tbl : list ProductRow) (r : Products.Product)
  : result (list ProductRow) :=
  if negb (binds (Products.product_id r)) then Raised overflow else
  match Products.name r, Products.category r with
  | None, _ => Raised (not_null "products" "name")
  | _, None => Raised (not_null "products" "category")
  | Some n, Some c =>
      if PrimFloat.is_nan (Products.price r)
      then Raised (not_null "products" "price")
      else
        match Products.product_id r with
        | None => Ok (tbl ++ [mkProductRow (next_rowid tbl) n c (Products.price r)])
        | Some i =>
            if bool_decide (i ∈ map p_product_id tbl)
            then Raised (unique "products" "product_id")
            else Ok (tbl ++ [mkProductRow i n c (Products.price r)])
        end
  end.

(** [INSERT INTO transactions (transaction_id, customer_id, product_id,
    amount, transaction_date) VALUES (?, ?, ?, ?, ?)]; foreign keys are not
    enforced by a connection that does not turn them on.  The text keys
    are stored as they are bound. *)
Definition insert_transaction (tbl : list TransactionRow)
    (r : Transactions.Transaction) : result (list TransactionRow) :=
  if negb (binds (Transactions.product_id r)) then Raised overflow else
  match Transactions.customer_id r, Transactions.product_id r,
        Transactions.transaction_date r with
  | None, _, _ => Raised (not_null "transactions" "customer_id")
  | _, None, _ => Raised (not_null "transactions" "product_id")
  | Some c, Some p, d =>
      if PrimFloat.is_nan (Transactions.amount r)
      then Raised (not_null "transactions" "amount")
      else
        match d with
        | None => Raised (not_null "transactions" "transaction_date")
        | Some d =>
            if key_taken (Transactions.transaction_id r) (map t_transaction_id tbl)
            then Raised (unique "transactions" "transaction_id")
            else Ok (tbl ++ [mkTransactionRow (Transactions.transaction_id r)
                                               c p (Transactions.amount r) d])
        end
  end.

(** [for _, row in df.iterrows(): cursor.execute(INSERT ...)] *)
Fixpoint insert_all {Row R} (insert : list Row -> R -> result (list Row))
    (tbl : list Row) (df : list R) : result (list Row) :=
  match df with
  | [] => Ok tbl
  | r :: rest =>
      match insert tbl r with
      | Ok tbl' => insert_all insert tbl' rest
      | Raised e => Raised e
      end
  end.

End Store.

(* ===================================================================== *)
(** ** The pipeline *)
(* ===================================================================== *)

Module Pipeline.
Import Py Store.

(** What a run acts on: the tables as committed to the database file, the
    tables as the open connection sees them (with its uncommitted
    statements), whether the connection is open, and what was printed, one
    entry for each [print]. *)
Record World : Type := mkWorld {
  disk : Tables;
  session : Tables;
  connected : bool;
  stdout : list string
}.

(** A method of [ETLPipeline]: it returns or raises, and changes the
    world. *)
Definition M (A : Type) : Type := World -> result A * World.

Definition ret {A} (a : A) : M A := fun w => (Ok a, w).

Definition raise {A} (e : exn) : M A := fun w => (Raised e, w).

Definition bind {A B} (m : M A) (k : A -> M B) : M B :=
  fun w =>
    match m w with
    | (Ok a, w') => k a w'
    | (Raised e, w') => (Raised e, w')
    end.

#[export] Instance M_ret : MRet M := @ret.
#[export] Instance M_bind : MBind M := fun A B k m => bind m k.

(** [try: m  except Exception as e: handler(e); raise] *)
Definition try_except {A} (m : M A) (handler : exn -> M unit) : M A :=
  fun w =>
    match m w with
    | (Ok a, w') => (Ok a, w')
    | (Raised e, w') =>
        match handler e w' with
        | (Ok _, w'') => (Raised e, w'')
        | (Raised e', w'') => (Raised e', w'')
        end
    end.

(** [try: m  finally: cleanup] *)
Definition try_finally {A} (m : M A) (cleanup : M unit) : M A :=
  fun w =>
    match m w with
    | (r, w') =>
        match cleanup w' with
        | (Ok _, w'') => (r, w'')
        | (Raised e', w'') => (Raised e', w'')
        end
    end.

Definition lift {A} (r : result A) : M A := fun w => (r, w).

Definition print (line : string) : M unit :=
  fun w => (Ok tt, mkWorld (disk w) (session w) (connected w) (stdout w ++ [line])).

Definition get_session : M Tables := fun w => (Ok (session w), w).

Definition put_session (t : Tables) : M unit :=
  fun w => (Ok tt, mkWorld (disk w) t (connected w) (stdout w)).

(** [self.conn.commit()] *)
Definition commit : M unit :=
  fun w => (Ok tt, mkWorld (session w) (session w) (connected w) (stdout w)).

(** [self.conn.close()]: statements that were not committed are lost. *)
Definition close : M unit :=
  fun w => (Ok tt, mkWorld (disk w) (disk w) false (stdout w)).

Definition bar : string := string_of_list_ascii (repeat "="%char 50).

Definition nl : string := String Regex.newline EmptyString.

(** How the database file answers: the exception that [sqlite3.connect]
    raises, if it raises, and the exception that the statements of
    [create_tables] raise, if they do. *)
Record Database : Type := mkDatabase {
  connect_raises : option exn;
  create_raises : option exn
}.

(** A database file that opens and takes the statements of
    [create_tables]. *)
Definition healthy : Database := mkDatabase None None.

Definition raise_if (fault : option exn) : M unit :=
  match fault with
  | Some e => raise e
  | None => ret tt
  end.

(** [self.conn] is set only when [sqlite3.connect] returns. *)
Definition connect_database (database : Database) (db_path : string) : M unit :=
  try_except
    (raise_if (connect_raises database) ;;
     (fun w => (Ok tt, mkWorld (disk w) (disk w) true (stdout w))) ;;
     print ("Connected to database: " ++ db_path))
    (fun e => print ("Error connecting to database: " ++ exn_message e)).

(** [CREATE TABLE IF NOT EXISTS]: a table that is not there is there and
    empty afterwards, which is how [Tables] holds it already. *)
Definition create_tables (database : Database) : M unit :=
  try_except
    (raise_if (create_raises database) ;;
     commit ;;
     print "Database tables created")
    (fun e => print ("Error creating tables: " ++ exn_message e)).

(** The three frames that [read_csv] returns. *)
Record Files : Type := mkFiles {
  customers_csv : Customers.CustomerFrame;
  products_csv : list Products.RawProduct;
  transactions_csv : list Transactions.RawTransaction
}.

(** [files] is what the three [read_csv] calls come to: the frames, or the
    exception of the first call that fails. *)
Definition extract_data (files : result Files) : M Files :=
  print "Extract data from CSV files..." ;;
  try_except
    (f ← lift files;
     print ("Raw data: "
            ++ str_of_nat (length (Customers.rows (customers_csv f))) ++ " customers, "
            ++ str_of_nat (length (products_csv f)) ++ " products, "
            ++ str_of_nat (length (transactions_csv f)) ++ " transactions") ;;
     ret f)
    (fun e => print ("Error extracting data: " ++ exn_message e)).

Definition transform_customers_step (df : Customers.CustomerFrame)
  : M (list Customers.Customer) :=
  print "Transform customers data..." ;;
  (* [df['email'].str] raises on a column that is not of text *)
  (if Customers.email_column_is_text df then ret tt else raise str_error) ;;
  let out := Customers.rows (Customers.transform_customers df) in
  print ("After transform: " ++ str_of_nat (length out) ++ " customers") ;;
  ret out.

Definition transform_products_step `{Pandas} (df : list Products.RawProduct)
  : M (list Products.Product) :=
  print "Transform products data..." ;;
  (* [df['category'].str] raises on a column that is not of text *)
  (if Products.category_column_is_text df then ret tt else raise str_error) ;;
  let out := Products.transform_products df in
  print ("After transform: " ++ str_of_nat (length out) ++ " products") ;;
  ret out.

Definition transform_transactions_step `{Pandas}
    (df : list Transactions.RawTransaction) : M (list Transactions.Transaction) :=
  print "Transform transactions data..." ;;
  out ← lift (Transactions.transform_transactions df);
  print ("After transform: " ++ str_of_nat (length out) ++ " transactions") ;;
  ret out.

Definition validate_referential_integrity_step
    (customers_df : list Customers.Customer)
    (products_df : list Products.Product)
    (transactions_df : list Transactions.Transaction)
  : M (list Transactions.Transaction) :=
  print "Validating referential integrity..." ;;
  let out := Integrity.validate_referential_integrity
               customers_df products_df transactions_df in
  print ("After referential integrity check: "
         ++ str_of_nat (length out) ++ " transactions") ;;
  ret out.

Definition load_customers (df : list Customers.Customer) : M unit :=
  print "Loading customers data..." ;;
  try_except
    (t ← get_session;
     put_session (mkTables [] (products t) (transactions t)) ;;
     rows ← lift (insert_all insert_customer [] df);
     put_session (mkTables rows (products t) (transactions t)) ;;
     commit ;;
     print ("Loaded: " ++ str_of_nat (length df) ++ " customers"))
    (fun e => print ("Error loading customers: " ++ exn_message e)).

Definition load_products (df : list Products.Product) : M unit :=
  print "Loading products data..." ;;
  try_except
    (t ← get_session;
     put_session (mkTables (customers t) [] (transactions t)) ;;
     rows ← lift (insert_all insert_product [] df);
     put_session (mkTables (customers t) rows (transactions t)) ;;
     commit ;;
     print ("Loaded: " ++ str_of_nat (length df) ++ " products"))
    (fun e => print ("Error loading products: " ++ exn_message e)).

Definition load_transactions (df : list Transactions.Transaction) : M unit :=
  print "Loading transactions data..." ;;
  try_except
    (t ← get_session;
     put_session (mkTables (customers t) (products t) []) ;;
     rows ← lift (insert_all insert_transaction [] df);
     put_session (mkTables (customers t) (products t) rows) ;;
     commit ;;
     print ("Loaded: " ++ str_of_nat (length df) ++ " transactions"))
    (fun e => print ("Error loading transactions: " ++ exn_message e)).

(** The dictionaries of counts, with keys [customers], [products] and
    [transactions]. *)
Record Counts : Type := mkCounts {
  n_customers : nat;
  n_products : nat;
  n_transactions : nat
}.

Definition verify_data_loaded : M Counts :=
  print "Verifying data in database..." ;;
  try_except
    (t ← get_session;
     let customer_count := length (customers t) in
     let product_count := length (products t) in
     let transaction_count := length (transactions t) in
     print ("Database counts: " ++ str_of_nat customer_count ++ " customers, "
            ++ str_of_nat product_count ++ " products, "
            ++ str_of_nat transaction_count ++ " transactions") ;;
     ret (mkCounts customer_count product_count transaction_count))
    (fun e => print ("Error verifying data: " ++ exn_message e)).

Definition pass_or_fail (b : bool) : string := if b then "PASS" else "FAIL".

Definition report_line (entity : string) (transformed loaded : nat) (ok : bool)
  : string :=
  entity ++ ": " ++ str_of_nat transformed ++ " transformed vs "
  ++ str_of_nat loaded ++ " loaded - " ++ pass_or_fail ok.

Definition check_etl_pipeline (transformed_counts loaded_counts : Counts) : M unit :=
  print (nl ++ bar) ;;
  print "ETL PIPELINE VALIDATION CHECK" ;;
  print bar ;;
  let customer_match :=
    Nat.eqb (n_customers transformed_counts) (n_customers loaded_counts) in
  let product_match :=
    Nat.eqb (n_products transformed_counts) (n_products loaded_counts) in
  let transaction_match :=
    Nat.eqb (n_transactions transformed_counts) (n_transactions loaded_counts) in
  print (report_line "Customers" (n_customers transformed_counts)
                     (n_customers loaded_counts) customer_match) ;;
  print (report_line "Products" (n_products transformed_counts)
                     (n_products loaded_counts) product_match) ;;
  print (report_line "Transactions" (n_transactions transformed_counts)
                     (n_transactions loaded_counts) transaction_match) ;;
  (if customer_match && product_match && transaction_match
   then print (nl ++ "ETL Pipeline Status: PASS - All data loaded correctly")
   else
     print (nl ++ "ETL Pipeline Status: FAIL - Data mismatch detected") ;;
     print "Pipeline is broken - investigate the loading process") ;;
  print bar.

(** Steps 7 and 8 of [run_pipeline] and the two lines after them. *)
Definition verify_and_check (transformed_counts : Counts) : M unit :=
  loaded_counts ← verify_data_loaded;
  check_etl_pipeline transformed_counts loaded_counts ;;
  print "ETL Pipeline completed!" ;;
  print bar.

(** The [try] block of [run_pipeline]. *)
Definition pipeline_steps `{Pandas} (database : Database) (db_path : string)
    (files : result Files) : M unit :=
  connect_database database db_path ;;
  create_tables database ;;
  f ← extract_data files;
  customers_clean ← transform_customers_step (customers_csv f);
  products_clean ← transform_products_step (products_csv f);
  transactions_clean ← transform_transactions_step (transactions_csv f);
  transactions_clean ←
    validate_referential_integrity_step
      customers_clean products_clean transactions_clean;
  let transformed_counts :=
    mkCounts (length customers_clean) (length products_clean)
             (length transactions_clean) in
  load_customers customers_clean ;;
  load_products products_clean ;;
  load_transactions transactions_clean ;;
  verify_and_check transformed_counts.

(** The [except] and [finally] clauses of [run_pipeline] around a [try]
    block. *)
Definition guarded (steps : M unit) : M unit :=
  try_finally
    (try_except steps
       (fun e => print ("ETL Pipeline failed: " ++ exn_message e)))
    (fun w => if connected w
              then (close ;; print "Database connection closed") w
              else (Ok tt, w)).

(** [run_pipeline], on a database file that answers as [database] says. *)
Definition run_pipeline_on `{Pandas} (database : Database) (db_path : string)
    (files : result Files) : M unit :=
  print "Starting ETL Pipeline..." ;;
  print bar ;;
  guarded (pipeline_steps database db_path files).

(** [run_pipeline], on a database file that opens and takes the statements
    of [create_tables]. *)
Definition run_pipeline `{Pandas} (db_path : string) (files : result Files)
  : M unit :=
  run_pipeline_on healthy db_path files.

(** A run of [main] on a database file that holds [tables]. *)
Definition start (tables : Tables) : World := mkWorld tables tables false [].

End Pipeline.

(* ===================================================================== *)
(** ** What a run leaves in the store *)
(* ===================================================================== *)

Module Outcome.
Import Py Store.

(** A cleaned row and the row that an [INSERT] stores for it. *)
Definition stored_customer (c : Customers.Customer) (row : CustomerRow) : Prop :=
  Customers.customer_id c = c_customer_id row
  /\ Customers.name c = Some (c_name row)
  /\ Customers.email c = Some (c_email row).

Definition stored_product (p : Products.Product) (row : ProductRow) : Prop :=
  (Products.product_id p = None \/ Products.product_id p = Some (p_product_id row))
  /\ Products.name p = Some (p_name row)
  /\ Products.category p = Some (p_category row)
  /\ Products.price p = p_price row.

Definition stored_transaction (t : Transactions.Transaction)
    (row : TransactionRow) : Prop :=
  Transactions.transaction_id t = t_transaction_id row
  /\ Transactions.customer_id t = Some (t_customer_id row)
  /\ Transactions.product_id t = Some (t_product_id row)
  /\ Transactions.amount t = t_amount row
  /\ Transactions.transaction_date t = Some (t_transaction_date row).

(** How far the load stage of a run got. *)
Inductive progress : Type :=
| NothingLoaded
| CustomersLoaded (rc : list CustomerRow)
| ProductsLoaded (rc : list CustomerRow) (rp : list ProductRow)
| AllLoaded (rc : list CustomerRow) (rp : list ProductRow)
            (rt : list TransactionRow).

(** The committed tables after a run that got as far as [p], on a database
    file that held [t]. *)
Definition tables_after (p : progress) (t : Tables) : Tables :=
  match p with
  | NothingLoaded => t
  | CustomersLoaded rc => mkTables rc (products t) (transactions t)
  | ProductsLoaded rc rp => mkTables rc rp (transactions t)
  | AllLoaded rc rp rt => mkTables rc rp rt
  end.

(** The transformers of customers and products as the pipeline runs them,
    with the error of the [.str] accessor. *)
Definition transform_customers_checked (df : Customers.CustomerFrame)
  : result (list Customers.Customer) :=
  if Customers.email_column_is_text df
  then Ok (Customers.rows (Customers.transform_customers df))
  else Raised str_error.

Definition transform_products_checked `{Pandas} (df : list Products.RawProduct)
  : result (list Products.Product) :=
  if Products.category_column_is_text df
  then Ok (Products.transform_products df)
  else Raised str_error.

(** The stages after the tables are there, in the order of
    [run_pipeline]. *)
Definition stages `{Pandas} (files : result Pipeline.Files)
  : progress * result unit :=
  match files with
  | Raised e => (NothingLoaded, Raised e)
  | Ok f =>
      match transform_customers_checked (Pipeline.customers_csv f) with
      | Raised e => (NothingLoaded, Raised e)
      | Ok customers_clean =>
      match transform_products_checked (Pipeline.products_csv f) with
      | Raised e => (NothingLoaded, Raised e)
      | Ok products_clean =>
      match Transactions.transform_transactions (Pipeline.transactions_csv f) with
      | Raised e => (NothingLoaded, Raised e)
      | Ok transactions_clean =>
          let transactions_clean :=
            Integrity.validate_referential_integrity
              customers_clean products_clean transactions_clean in
          match insert_all insert_customer [] customers_clean with
          | Raised e => (NothingLoaded, Raised e)
          | Ok rc =>
              match insert_all insert_product [] products_clean with
              | Raised e => (CustomersLoaded rc, Raised e)
              | Ok rp =>
                  match insert_all insert_transaction [] transactions_clean with
                  | Raised e => (ProductsLoaded rc rp, Raised e)
                  | Ok rt => (AllLoaded rc rp rt, Ok tt)
                  end
              end
          end
      end
      end
      end
  end.

(** The stages of a run, from the connection on. *)
Definition stages_on `{Pandas} (database : Pipeline.Database)
    (files : result Pipeline.Files) : progress * result unit :=
  match Pipeline.connect_raises database with
  | Some e => (NothingLoaded, Raised e)
  | None =>
      match Pipeline.create_raises database with
      | Some e => (NothingLoaded, Raised e)
      | None => stages files
      end
  end.

End Outcome.

(* ===================================================================== *)
(** ** What [generate_data.py] writes into the files *)
(* ===================================================================== *)

Module Generator.

(** The emails that [generate_customers] picks from for its ten percent of
    invalid email patterns. *)
Definition invalid_email_choices : list string :=
  [ "invalid_email"; "user@.com"; "user@"; "@example.com";
    "user..name@example.com"; "user name@example.com"; "user@example..com";
    "user@.example.com"; "user@example.com."; "user@-example.com";
    "user@example-.com" ].

(** The emails that it picks from for its ten percent of malformed but
    plausible emails. *)
Definition plausible_email_choices : list string :=
  [ "user@example"; "user@example.c"; "user@example.co.uk";
    "user+tag@example.com"; "user.tag@example.com"; "user_tag@example.com" ].

(** The categories that [generate_products] picks from. *)
Definition categories : list string :=
  [ "Electronics"; "electronics"; "ELECTRONICS"; "Electronics"; "electronics";
    "Books"; "books"; "BOOKS"; "Books"; "books";
    "Home"; "home"; "HOME"; "Home"; "home";
    "Electronics"; "electronics"; "Electronics"; "electronics"; "Electronics" ].

End Generator.

(* ===================================================================== *)
(** ** A cleaned frame read again as a raw frame *)
(* ===================================================================== *)

Module Reread.

(** A cleaned product as the raw row that it is when the cleaned frame is
    the input of another run. *)
Definition raw_of_product (p : Products.Product) : Products.RawProduct :=
  Products.mkRawProduct (Products.product_id p) (Products.name p)
                        (Products.category p) (Py.Num (Products.price p)).

End Reread.

(* ===================================================================== *)
(** ** Example frames *)
(* ===================================================================== *)

Module Scenarios.
Import Customers.

(** ["a@b.com\n"] *)
Definition email_with_newline : string :=
  "a@b.com" ++ String Regex.newline EmptyString.

Definition newline_customer : Customer :=
  mkCustomer (Some "1") (Some "Ann") (Some email_with_newline).

(** Rows [{id:1,email:"a@b.com"}, {id:2,email:"a@b.com"}, {id:3,email:""}]
    of a frame that has no [name] column. *)
Definition dedup_scenario : CustomerFrame :=
  mkCustomerFrame false
    [ mkCustomer (Some "1") None (Some "a@b.com");
      mkCustomer (Some "2") None (Some "a@b.com");
      mkCustomer (Some "3") None (Some "") ].

(** Three rows: the second is the first to carry ["a@b.com"], and shares its
    [customer_id] with the row before it. *)
Definition id_clash_first : Customer :=
  mkCustomer (Some "1") (Some "Ann") (Some "x@y.com").
Definition id_clash_second : Customer :=
  mkCustomer (Some "1") (Some "Bob") (Some "a@b.com").
Definition id_clash_third : Customer :=
  mkCustomer (Some "2") (Some "Cid") (Some "a@b.com").
Definition id_clash_frame : CustomerFrame :=
  mkCustomerFrame true [id_clash_first; id_clash_second; id_clash_third].


(** A stand-in for the parsers of pandas that reads the dates of the
    scenarios: text of the form [YYYY-MM-DD] that names a day of the
    calendar is that day at midnight, and no other text is read. *)
Definition digit_value (c : ascii) : option Z :=
  let n := nat_of_ascii c in
  if (48 <=? n)%nat && (n <=? 57)%nat then Some (Z.of_nat (n - 48)) else None.

Definition two_digits (a b : ascii) : option Z :=
  match digit_value a, digit_value b with
  | Some x, Some y => Some (10 * x + y)%Z
  | _, _ => None
  end.

Definition is_leap_year (y : Z) : bool :=
  ((y mod 4 =? 0) && (negb (y mod 100 =? 0) || (y mod 400 =? 0)))%Z.

Definition days_in_month (y m : Z) : Z :=
  if (m =? 2)%Z then (if is_leap_year y then 29 else 28)
  else if ((m =? 4) || (m =? 6) || (m =? 9) || (m =? 11))%Z then 30
  else 31.

Definition iso_date (s : string) : option Py.Timestamp :=
  match list_ascii_of_string s with
  | [y1; y2; y3; y4; "-"%char; m1; m2; "-"%char; d1; d2] =>
      match two_digits y1 y2, two_digits y3 y4, two_digits m1 m2, two_digits d1 d2 with
      | Some yh, Some yl, Some m, Some d =>
          let y := (100 * yh + yl)%Z in
          if ((1 <=? m) && (m <=? 12) && (1 <=? d) && (d <=? days_in_month y m))%Z
          then Some (Py.mkTimestamp y m d 0 None)
          else None
      | _, _, _, _ => None
      end
  | _ => None
  end.

Definition iso_pandas : Py.Pandas :=
  {| Py.parse_number := fun _ => nan; Py.parse_datetime := iso_date |}.

(** One transaction with the given amount and date, of customer ["c1"] and
    product 1. *)
Definition one_transaction (amount : float) (date : string)
  : Transactions.RawTransaction :=
  Transactions.mkRawTransaction (Some "t1") (Some "c1") (Some 1%Z)
                                (Py.Num amount) (Some date).

Definition one_customer : CustomerFrame :=
  mkCustomerFrame true [mkCustomer (Some "c1") (Some "Ann") (Some "ann@example.com")].

(** A product without a name: [transform_products] keeps it, and the store
    refuses it. *)
Definition nameless_product : Products.RawProduct :=
  Products.mkRawProduct (Some 1%Z) None (Some "Books") (Py.Num 5).

Definition named_product : Products.RawProduct :=
  Products.mkRawProduct (Some 1%Z) (Some "Atlas") (Some "Books") (Py.Num 5).


Definition good_files : Py.result Pipeline.Files :=
  Py.Ok (Pipeline.mkFiles one_customer [named_product]
                          [one_transaction 20 "2024-01-15"]).

Definition empty_tables : Store.Tables := Store.mkTables [] [] [].


(** Two products with one [product_id]; the first has a price out of
    range. *)
Definition shadowed_by_id : list Products.RawProduct :=
  [ Products.mkRawProduct (Some 1%Z) (Some "Atlas") (Some "Books") (Py.Num 20000);
    Products.mkRawProduct (Some 1%Z) (Some "Bible") (Some "Books") (Py.Num 5) ].

(** Two products with one name and category; the first has a price out of
    range. *)
Definition shadowed_by_pair : list Products.RawProduct :=
  [ Products.mkRawProduct (Some 1%Z) (Some "Atlas") (Some "books") (Py.Num (-1));
    Products.mkRawProduct (Some 2%Z) (Some "Atlas") (Some "BOOKS") (Py.Num 5) ].

(** Two products with one [product_id]; the first has no price. *)
Definition shadowed_by_missing_price : list Products.RawProduct :=
  [ Products.mkRawProduct (Some 1%Z) (Some "Atlas") (Some "Books") (Py.Num nan);
    Products.mkRawProduct (Some 1%Z) (Some "Bible") (Some "Books") (Py.Num 5) ].

Definition mixed_case_product : Products.RawProduct :=
  Products.mkRawProduct (Some 1%Z) (Some "Radio") (Some "ElEcTrOnIcS") (Py.Num 5).


(** Two transactions: the first with a date that is no day of the
    calendar, the second with a date that is one. *)
Definition date_scenario : list Transactions.RawTransaction :=
  [ Transactions.mkRawTransaction (Some "t0") (Some "c1") (Some 1%Z)
                                  (Py.Num 20) (Some "2023-02-30");
    Transactions.mkRawTransaction (Some "t1") (Some "c1") (Some 1%Z)
                                  (Py.Num 20) (Some "2024-01-15") ].

Definition january_15 : Py.Timestamp := Py.mkTimestamp 2024 1 15 0 None.


(** Counts that do not reconcile, and a world with an open connection
    whose tables are empty. *)
Definition two_one_one : Pipeline.Counts := Pipeline.mkCounts 2 1 1.

Definition connected_empty : Pipeline.World :=
  Pipeline.mkWorld empty_tables empty_tables true [].

End Scenarios.

(* ===================================================================== *)
(** ** Facts about the frame operations *)
(* ===================================================================== *)

Module FrameFacts.
Import Frame.

Section DropDuplicatesFacts.
Context {A K : Type} `{EqDecision K} (key : A -> K).

Lemma existsb_cell_eqb (k : K) (seen : list K) :
  existsb (cell_eqb k) seen = true <-> In k seen.
Proof.
  rewrite existsb_exists. unfold cell_eqb. split.
  - intros (y & Hy & E). apply bool_decide_eq_true in E. now subst.
  - intros H. exists k. split; [assumption | now apply bool_decide_eq_true].
Qed.

Lemma existsb_cell_eqb_false (k : K) (seen : list K) :
  existsb (cell_eqb k) seen = false <-> ~ In k seen.
Proof.
  rewrite <- existsb_cell_eqb. destruct (existsb _ _); split; congruence.
Qed.

(** Only the set of keys met so far matters. *)
Lemma drop_duplicates_from_ext (l : list A) : forall seen seen' : list K,
  (forall k, In k seen <-> In k seen') ->
  drop_duplicates_from cell_eqb key seen l
  = drop_duplicates_from cell_eqb key seen' l.
Proof.
  induction l as [|x l IH]; intros seen seen' E; simpl; [reflexivity|].
  assert (Hx : existsb (cell_eqb (key x)) seen = existsb (cell_eqb (key x)) seen').
  { apply eq_true_iff_eq. rewrite !existsb_cell_eqb. apply E. }
  rewrite Hx. destruct (existsb _ seen').
  - now apply IH.
  - f_equal. apply IH. intros k. simpl. rewrite (E k). tauto.
Qed.

Lemma drop_duplicates_from_In (l : list A) : forall (seen : list K) (x : A),
  In x (drop_duplicates_from cell_eqb key seen l) ->
  In x l /\ ~ In (key x) seen.
Proof.
  induction l as [|y l IH]; intros seen x; simpl; [tauto|].
  destruct (existsb _ seen) eqn:E.
  - intros H. apply IH in H. tauto.
  - simpl. intros [-> | H].
    + split; [now left | now apply existsb_cell_eqb_false].
    + apply IH in H. simpl in H. tauto.
Qed.

Lemma drop_duplicates_In (l : list A) (x : A) :
  In x (drop_duplicates cell_eqb key l) -> In x l.
Proof. intros H. now apply drop_duplicates_from_In in H. Qed.

(** After the operation no two rows share a key. *)
Lemma drop_duplicates_from_NoDup (l : list A) : forall seen : list K,
  List.NoDup (map key (drop_duplicates_from cell_eqb key seen l)).
Proof.
  induction l as [|y l IH]; intros seen; simpl; [constructor|].
  destruct (existsb _ seen) eqn:E; [apply IH|].
  simpl. constructor; [|apply IH].
  rewrite in_map_iff. intros (z & Ez & Hz).
  apply drop_duplicates_from_In in Hz. simpl in Hz. intuition congruence.
Qed.

Lemma drop_duplicates_NoDup (l : list A) :
  List.NoDup (map key (drop_duplicates cell_eqb key l)).
Proof. apply drop_duplicates_from_NoDup. Qed.

(** The operation, seen from a row in the middle of the frame. *)
Lemma drop_duplicates_from_app (l1 : list A) : forall (seen : list K) (l2 : list A),
  drop_duplicates_from cell_eqb key seen (l1 ++ l2)
  = drop_duplicates_from cell_eqb key seen l1
    ++ drop_duplicates_from cell_eqb key (map key l1 ++ seen) l2.
Proof.
  induction l1 as [|x l1 IH]; intros seen l2; simpl; [reflexivity|].
  destruct (existsb _ seen) eqn:E.
  - rewrite IH. f_equal. apply drop_duplicates_from_ext.
    intros k. simpl. rewrite !in_app_iff.
    apply existsb_cell_eqb in E. split; [tauto|].
    intros [<- | H]; tauto.
  - simpl. rewrite IH. do 2 f_equal. apply drop_duplicates_from_ext.
    intros k. simpl. rewrite !in_app_iff. simpl. tauto.
Qed.

(** A later row with the key of an earlier row is dropped, whatever else
    the frame holds. *)
Lemma drop_duplicates_first_wins (pre post : list A) (x y : A) :
  key y = key x -> ~ In (key x) (map key pre) ->
  In y (drop_duplicates cell_eqb key (pre ++ x :: post)) -> y = x.
Proof.
  intros Ek Hpre. unfold drop_duplicates. rewrite drop_duplicates_from_app.
  rewrite in_app_iff. intros [H | H].
  - apply drop_duplicates_from_In in H. destruct H as [H _].
    exfalso. apply Hpre. rewrite <- Ek. now apply in_map.
  - simpl in H. rewrite app_nil_r in H.
    destruct (existsb _ _) eqn:E.
    + apply existsb_cell_eqb in E. contradiction.
    + destruct H as [H | H]; [now symmetry|].
      apply drop_duplicates_from_In in H. destruct H as [_ H].
      exfalso. apply H. rewrite Ek. now left.
Qed.

(** The first row that carries a key is kept. *)
Lemma drop_duplicates_keeps_first (pre post : list A) (x : A) :
  ~ In (key x) (map key pre) ->
  In x (drop_duplicates cell_eqb key (pre ++ x :: post)).
Proof.
  intros Hpre. unfold drop_duplicates. rewrite drop_duplicates_from_app.
  rewrite in_app_iff. right. simpl. rewrite app_nil_r.
  destruct (existsb _ _) eqn:E; [|now left].
  apply existsb_cell_eqb in E. contradiction.
Qed.
End DropDuplicatesFacts.

End FrameFacts.

(* ===================================================================== *)
(** ** Facts about the matcher *)
(* ===================================================================== *)

Module RegexFacts.
Import Regex.

Lemma lang_void_inv s : ~ lang Void s.
Proof. intros H. inversion H. Qed.

Lemma lang_eps_inv s : lang Eps s -> s = [].
Proof. intros H. now inversion H. Qed.

Lemma lang_class_inv p s : lang (Class p) s -> exists c, s = [c] /\ p c = true.
Proof. intros H. inversion H; subst. eauto. Qed.

Lemma lang_cat_inv a b s :
  lang (Cat a b) s -> exists u v, s = u ++ v /\ lang a u /\ lang b v.
Proof. intros H. inversion H; subst. eauto. Qed.

Lemma lang_alt_inv a b s : lang (Alt a b) s -> lang a s \/ lang b s.
Proof. intros H. inversion H; subst; tauto. Qed.

Lemma nullable_lang r : nullable r = true <-> lang r [].
Proof.
  induction r as [| |p|a IHa b IHb|a IHa b IHb|a IHa]; simpl.
  - split; [discriminate | intros H; now apply lang_void_inv in H].
  - split; [constructor | reflexivity].
  - split; [discriminate|]. intros H. apply lang_class_inv in H.
    destruct H as (c & E & _). discriminate.
  - rewrite andb_true_iff, IHa, IHb. split.
    + intros [Ha Hb]. now apply (lang_cat a b [] []).
    + intros H. apply lang_cat_inv in H. destruct H as (u & v & E & Hu & Hv).
      symmetry in E. apply app_eq_nil in E. destruct E; now subst.
  - rewrite orb_true_iff, IHa, IHb. split.
    + intros [H | H]; [now apply lang_alt_l | now apply lang_alt_r].
    + apply lang_alt_inv.
  - split; [constructor | reflexivity].
Qed.

Lemma deriv_sound c r : forall s, lang (deriv c r) s -> lang r (c :: s).
Proof.
  induction r as [| |p|a IHa b IHb|a IHa b IHb|a IHa]; simpl; intros s H.
  - now apply lang_void_inv in H.
  - now apply lang_void_inv in H.
  - destruct (p c) eqn:E; [|now apply lang_void_inv in H].
    apply lang_eps_inv in H. subst. now constructor.
  - assert (Hcat : forall t, lang (Cat (deriv c a) b) t -> lang (Cat a b) (c :: t)).
    { intros t Ht. apply lang_cat_inv in Ht. destruct Ht as (u & v & -> & Hu & Hv).
      apply (lang_cat a b (c :: u) v); auto. }
    destruct (nullable a) eqn:N; [|now apply Hcat].
    apply lang_alt_inv in H. destruct H as [H | H]; [now apply Hcat|].
    apply (lang_cat a b [] (c :: s)); [now apply nullable_lang | auto].
  - apply lang_alt_inv in H. destruct H as [H | H];
      [apply lang_alt_l | apply lang_alt_r]; auto.
  - apply lang_cat_inv in H. destruct H as (u & v & -> & Hu & Hv).
    apply lang_star_cons; auto.
Qed.

Lemma deriv_complete c r w :
  lang r w -> forall s, w = c :: s -> lang (deriv c r) s.
Proof.
  induction 1 as [|p d Hp|a b u v Hu IHu Hv IHv|a b u Hu IHu|a b u Hu IHu
                  |a|a d u v Hu IHu Hv IHv]; intros s E; simpl.
  - discriminate.
  - injection E as -> <-. rewrite Hp. constructor.
  - destruct u as [|d u]; simpl in E.
    + subst v. apply nullable_lang in Hu. rewrite Hu.
      apply lang_alt_r. now apply IHv.
    + injection E as -> <-.
      assert (Hc : lang (Cat (deriv c a) b) (u ++ v)).
      { apply lang_cat; [now apply IHu | assumption]. }
      destruct (nullable a); [now apply lang_alt_l | assumption].
  - apply lang_alt_l. now apply IHu.
  - apply lang_alt_r. now apply IHu.
  - discriminate.
  - injection E as -> <-. apply lang_cat; [now apply IHu | assumption].
Qed.

(** The matcher decides membership in the language. *)
Theorem matches_lang s : forall r, matches r s = true <-> lang r s.
Proof.
  induction s as [|c s IH]; intros r; simpl.
  - apply nullable_lang.
  - rewrite IH. split; [apply deriv_sound|].
    intros H. now apply (deriv_complete c r (c :: s)).
Qed.

Lemma lang_star_class p s : lang (Star (Class p)) s <-> forallb p s = true.
Proof.
  split.
  - remember (Star (Class p)) as r eqn:Er. induction 1; try discriminate.
    + reflexivity.
    + injection Er as ->. apply lang_class_inv in H.
      destruct H as (d & E & Hd). injection E as -> ->. simpl.
      rewrite Hd. simpl. now apply IHlang2.
  - induction s as [|c s IH]; simpl; [constructor|].
    rewrite andb_true_iff. intros [Hc Hs].
    apply (lang_star_cons (Class p) c [] s); [now constructor | auto].
Qed.

Lemma lang_at_least_class p n : forall s,
  lang (at_least n (Class p)) s <-> (n <= length s)%nat /\ forallb p s = true.
Proof.
  induction n as [|n IH]; intros s; simpl.
  - rewrite lang_star_class. split; [intros H; split; [lia | exact H] | tauto].
  - split.
    + intros H. apply lang_cat_inv in H. destruct H as (u & v & -> & Hu & Hv).
      apply lang_class_inv in Hu. destruct Hu as (c & -> & Hc).
      apply IH in Hv. simpl. rewrite Hc. simpl. split; [lia | tauto].
    + destruct s as [|c s]; simpl; [lia|]. rewrite andb_true_iff.
      intros (Hn & Hc & Hs). apply (lang_cat (Class p) _ [c] s).
      * now constructor.
      * apply IH. split; [lia | assumption].
Qed.

Lemma lang_plus_class p s :
  lang (plus (Class p)) s <-> s <> [] /\ forallb p s = true.
Proof.
  change (plus (Class p)) with (at_least 1 (Class p)).
  rewrite lang_at_least_class. destruct s; simpl; split; intros [H1 H2];
    split; try lia; try congruence; auto.
Qed.

Lemma unsnoc_None s : unsnoc s = None -> s = [].
Proof.
  destruct s as [|c s]; simpl; [reflexivity|].
  destruct (unsnoc s) as [[q m]|]; discriminate.
Qed.

Lemma unsnoc_spec s : forall p l, unsnoc s = Some (p, l) <-> s = p ++ [l].
Proof.
  induction s as [|c s IH]; intros p l; simpl.
  - split; [discriminate|]. intros E. symmetry in E.
    apply app_eq_nil in E. destruct E; discriminate.
  - destruct (unsnoc s) as [[q m]|] eqn:U.
    + pose proof (proj1 (IH q m) eq_refl) as Es. split.
      * intros E. injection E as E1 E2. subst p l s. reflexivity.
      * destruct p as [|d p]; simpl; intros E; injection E as E1 E2.
        -- rewrite E2 in Es. destruct q; discriminate.
        -- apply IH in E2. congruence.
    + apply unsnoc_None in U. subst s. split.
      * intros E. injection E as E1 E2. now subst.
      * destruct p as [|d p]; simpl; intros E.
        -- congruence.
        -- destruct p; discriminate.
Qed.

End RegexFacts.

Import Customers.

(* ===================================================================== *)
(** ** The customer transformer *)
(* ===================================================================== *)

Module CustomerFacts.
Import Frame Regex FrameFacts RegexFacts.

Lemma lang_is_char x s : lang (Class (is_char x)) s <-> s = [x].
Proof.
  split.
  - intros H. apply lang_class_inv in H. destruct H as (c & -> & Hc).
    unfold is_char in Hc. apply Ascii.eqb_eq in Hc. now subst.
  - intros ->. constructor. unfold is_char. apply Ascii.eqb_refl.
Qed.

(** The language of the pattern body is the pattern of the specification. *)
Lemma lang_email_body s : lang email_body s <-> spec_email_pattern s.
Proof.
  unfold email_body, spec_email_pattern. split.
  - intros H.
    apply lang_cat_inv in H. destruct H as (loc & s1 & -> & Hloc & H).
    apply lang_cat_inv in H. destruct H as (a & s2 & -> & Ha & H).
    apply lang_cat_inv in H. destruct H as (dom & s3 & -> & Hdom & H).
    apply lang_cat_inv in H. destruct H as (d & tld & -> & Hd & Htld).
    apply lang_is_char in Ha, Hd. subst a d.
    apply lang_plus_class in Hloc, Hdom. apply lang_at_least_class in Htld.
    exists loc, dom, tld. simpl. tauto.
  - intros (loc & dom & tld & -> & Hl1 & Hl2 & Hd1 & Hd2 & Ht1 & Ht2).
    apply lang_cat; [now apply lang_plus_class|].
    apply (lang_cat _ _ ["@"%char]); [now apply lang_is_char|].
    apply lang_cat; [now apply lang_plus_class|].
    apply (lang_cat _ _ ["."%char]); [now apply lang_is_char|].
    now apply lang_at_least_class.
Qed.

Lemma matches_email_body s :
  matches email_body s = true <-> spec_email_pattern s.
Proof. rewrite matches_lang. apply lang_email_body. Qed.

(** What [str.match] accepts: the pattern of the specification, and the
    same followed by one final newline. *)
Theorem str_match_email_spec (e : string) :
  str_match_email e = true <->
  spec_email_pattern (list_ascii_of_string e)
  \/ exists p, list_ascii_of_string e = p ++ [newline] /\ spec_email_pattern p.
Proof.
  unfold str_match_email, match_to_dollar. rewrite orb_true_iff.
  rewrite matches_email_body. apply or_iff_compat_l.
  destruct (unsnoc (list_ascii_of_string e)) as [[p l]|] eqn:U.
  - apply unsnoc_spec in U. rewrite andb_true_iff, Ascii.eqb_eq, matches_email_body.
    split.
    + intros [-> H]. eauto.
    + intros (q & E & H). rewrite U in E. apply app_inj_tail in E.
      destruct E as [-> ->]. auto.
  - apply unsnoc_None in U. split; [discriminate|].
    intros (q & E & _). rewrite U in E. destruct q; discriminate.
Qed.

Lemma filter_twice {A} (p q : A -> bool) (l : list A) :
  List.filter p (List.filter q l) = List.filter (fun x => q x && p x) l.
Proof.
  induction l as [|x l IH]; simpl; [reflexivity|].
  destruct (q x); simpl; [|exact IH].
  destruct (p x); [now f_equal | exact IH].
Qed.

Lemma valid_emails_filter l : valid_emails l = List.filter email_ok l.
Proof.
  unfold valid_emails, keep_matching, drop_blacklisted, dropna_email.
  rewrite !filter_twice. apply filter_ext. intros r. unfold email_ok.
  destruct (email r) as [e|].
  - now rewrite bool_decide_eq_true_2 by congruence.
  - now rewrite bool_decide_eq_false_2 by tauto.
Qed.

Lemma valid_emails_In l r : In r (valid_emails l) <-> In r l /\ email_ok r = true.
Proof. rewrite valid_emails_filter. apply filter_In. Qed.

Lemma valid_emails_app l1 l2 :
  valid_emails (l1 ++ l2) = valid_emails l1 ++ valid_emails l2.
Proof. rewrite !valid_emails_filter. apply List.filter_app. Qed.

Lemma transform_customers_rows df :
  rows (transform_customers df)
  = map (default_name (has_name df))
        (drop_duplicates cell_eqb customer_id
           (drop_duplicates cell_eqb email (valid_emails (rows df)))).
Proof. reflexivity. Qed.

Lemma default_name_email h r : email (default_name h r) = email r.
Proof. now destruct h. Qed.

Lemma default_name_customer_id h r : customer_id (default_name h r) = customer_id r.
Proof. now destruct h. Qed.

(** Uniqueness of one column survives a later [drop_duplicates] on
    another. *)
Lemma drop_duplicates_from_keeps_NoDup {A K B} `{EqDecision K}
    (key : A -> K) (f : A -> B) (l : list A) : forall seen,
  List.NoDup (map f l) ->
  List.NoDup (map f (drop_duplicates_from cell_eqb key seen l)).
Proof.
  induction l as [|x l IH]; intros seen N; simpl; [constructor|].
  simpl in N. apply NoDup_cons_iff in N. destruct N as [Nx N].
  destruct (existsb _ seen); [now apply IH|].
  simpl. constructor; [|now apply IH].
  rewrite in_map_iff. intros (y & Ey & Hy).
  apply drop_duplicates_from_In in Hy. destruct Hy as [Hy _].
  apply Nx. rewrite <- Ey. now apply in_map.
Qed.

(** What holds of every cleaned customers frame. *)
Theorem transform_customers_invariant (df : CustomerFrame) :
  (forall r, In r (rows (transform_customers df)) ->
     exists e, email r = Some e
       /\ isin invalid_patterns e = false
       /\ str_match_email e = true)
  /\ List.NoDup (map email (rows (transform_customers df)))
  /\ List.NoDup (map customer_id (rows (transform_customers df))).
Proof.
  rewrite transform_customers_rows. repeat split.
  - intros r Hr. apply in_map_iff in Hr. destruct Hr as (x & <- & Hx).
    do 2 apply drop_duplicates_In in Hx. apply valid_emails_In in Hx.
    destruct Hx as [_ Hx]. unfold email_ok in Hx.
    rewrite default_name_email. destruct (email x) as [e|]; [|discriminate].
    apply andb_true_iff in Hx. destruct Hx as [Hb Hm].
    exists e. repeat split; [|assumption]. now apply negb_true_iff.
  - rewrite map_map.
    rewrite (map_ext _ email) by (intros; apply default_name_email).
    apply drop_duplicates_from_keeps_NoDup, drop_duplicates_NoDup.
  - rewrite map_map.
    rewrite (map_ext _ customer_id) by (intros; apply default_name_customer_id).
    apply drop_duplicates_NoDup.
Qed.

End CustomerFacts.

(* ===================================================================== *)
(** ** Claims about the customer transformer *)
(* ===================================================================== *)

Module CustomerClaims.
Import Frame Regex FrameFacts RegexFacts CustomerFacts Scenarios.

(** C1. A customer whose email is a well-formed address followed by one
    newline passes the three email filters, because [$] also matches just
    before a final newline: the row is in the cleaned frame although its
    email is not of the syntactic pattern of the specification (it is not a
    blacklist literal either). *)
Theorem email_with_final_newline_is_kept :
  rows (transform_customers (mkCustomerFrame true [newline_customer]))
  = [newline_customer]
  /\ email newline_customer = Some email_with_newline
  /\ isin invalid_patterns email_with_newline = false
  /\ ~ spec_email_pattern (list_ascii_of_string email_with_newline).
Proof.
  repeat split; try reflexivity.
  rewrite <- matches_email_body. vm_compute. discriminate.
Qed.

(** C3, as stated, fails: the first row that carries ["a@b.com"] is removed
    by the later [customer_id] deduplication when an earlier row has its
    [customer_id]. *)
Lemma first_seen_email_row_can_be_dropped :
  rows id_clash_frame = [id_clash_first; id_clash_second; id_clash_third]
  /\ email id_clash_second = email id_clash_third
  /\ customer_id id_clash_second <> customer_id id_clash_third
  /\ email_ok id_clash_second = true
  /\ email_ok id_clash_third = true
  /\ email id_clash_first <> email id_clash_second
  /\ ~ In id_clash_second (rows (transform_customers id_clash_frame))
  /\ rows (transform_customers id_clash_frame) = [id_clash_first].
Proof.
  assert (E : rows (transform_customers id_clash_frame) = [id_clash_first])
    by (vm_compute; reflexivity).
  repeat split; try (vm_compute; reflexivity); try discriminate.
  rewrite E. simpl. intros [H | []]. discriminate.
Qed.

(** C3, amended.  Of the rows that carry one email that passes the checks,
    no row but the first in input order is in the cleaned frame; that first
    row is in the cleaned frame exactly when no earlier row that survives
    the email steps carries its [customer_id]; and the scenario frame is
    cleaned to its first row alone. *)
Theorem first_seen_email_wins
    (df : CustomerFrame) (pre mid post : list Customer)
    (r1 r2 : Customer) (e : string) :
  rows df = pre ++ r1 :: mid ++ r2 :: post ->
  email r1 = Some e -> email r2 = Some e ->
  customer_id r1 <> customer_id r2 ->
  email_ok r1 = true ->
  (forall r, In r pre -> email r <> Some e) ->
  (forall r, In r (rows (transform_customers df)) -> email r = Some e ->
     r = default_name (has_name df) r1)
  /\ ~ In (default_name (has_name df) r2) (rows (transform_customers df))
  /\ (In (default_name (has_name df) r1) (rows (transform_customers df)) <->
      ~ In (customer_id r1)
           (map customer_id (drop_duplicates cell_eqb email (valid_emails pre))))
  /\ rows (transform_customers dedup_scenario)
     = [mkCustomer (Some "1") (Some "Unknown") (Some "a@b.com")].
Proof.
  intros Hrows E1 E2 Hid Hok Hpre.
  set (P := drop_duplicates cell_eqb email (valid_emails pre)).
  assert (HP : forall x, In x P -> email x <> Some e).
  { intros x Hx. apply drop_duplicates_In, valid_emails_In in Hx.
    apply Hpre. tauto. }
  assert (Hout : exists Q,
            rows (transform_customers df)
            = map (default_name (has_name df))
                  (drop_duplicates cell_eqb customer_id (P ++ r1 :: Q))
            /\ forall x, In x Q -> email x <> Some e).
  { rewrite transform_customers_rows, Hrows, valid_emails_app.
    change (r1 :: mid ++ r2 :: post) with ([r1] ++ (mid ++ r2 :: post)).
    rewrite valid_emails_app.
    assert (Hv1 : valid_emails [r1] = [r1]).
    { rewrite valid_emails_filter. simpl. now rewrite Hok. }
    rewrite Hv1. simpl.
    assert (HVpre : ~ In (email r1) (map email (valid_emails pre))).
    { rewrite in_map_iff. intros (x & Ex & Hx). apply valid_emails_In in Hx.
      apply (Hpre x); [tauto | congruence]. }
    unfold drop_duplicates at 2. rewrite drop_duplicates_from_app. simpl.
    rewrite app_nil_r.
    destruct (existsb _ _) eqn:Ex;
      [apply existsb_cell_eqb in Ex; contradiction|].
    eexists. split; [reflexivity|].
    intros x Hx. apply drop_duplicates_from_In in Hx. destruct Hx as [_ Hx].
    simpl in Hx. rewrite E1 in Hx. intros Hc. apply Hx. now left. }
  destruct Hout as (Q & -> & HQ).
  set (D := drop_duplicates cell_eqb customer_id (P ++ r1 :: Q)).
  assert (HD : forall x, In x D -> email x = Some e -> x = r1).
  { intros x Hx Hxe. apply drop_duplicates_In in Hx.
    apply in_app_iff in Hx. destruct Hx as [Hx | [Hx | Hx]].
    - now apply HP in Hx.
    - now symmetry.
    - now apply HQ in Hx. }
  assert (Hfirst : forall r, In r (map (default_name (has_name df)) D) ->
            email r = Some e -> r = default_name (has_name df) r1).
  { intros r Hr Hre. apply in_map_iff in Hr. destruct Hr as (x & <- & Hx).
    rewrite default_name_email in Hre. now rewrite (HD x Hx Hre). }
  assert (HinD : In r1 D <-> ~ In (customer_id r1) (map customer_id P)).
  { split.
    - intros Hin Hc. unfold D, drop_duplicates in Hin.
      rewrite drop_duplicates_from_app in Hin. apply in_app_iff in Hin.
      destruct Hin as [Hin | Hin].
      + apply drop_duplicates_from_In in Hin. destruct Hin as [Hin _].
        now apply HP in Hin.
      + rewrite app_nil_r in Hin. simpl in Hin.
        destruct (existsb (cell_eqb (customer_id r1)) (map customer_id P)) eqn:Ec.
        * apply drop_duplicates_from_In in Hin. destruct Hin as [Hin _].
          now apply HQ in Hin.
        * apply existsb_cell_eqb_false in Ec. contradiction.
    - intros Hc. now apply drop_duplicates_keeps_first. }
  split; [exact Hfirst|]. split; [|split].
  - intros Hin. apply Hfirst in Hin.
    + apply (f_equal customer_id) in Hin.
      rewrite !default_name_customer_id in Hin. congruence.
    + now rewrite default_name_email.
  - rewrite <- HinD. split.
    + intros Hin. apply in_map_iff in Hin. destruct Hin as (x & Ex' & Hx).
      assert (Hxe : email x = Some e).
      { apply (f_equal email) in Ex'. rewrite !default_name_email in Ex'.
        congruence. }
      now rewrite <- (HD x Hx Hxe).
    + apply in_map.
  - vm_compute. reflexivity.
Qed.

(** The amended C3 at the frame of the counterexample, with the third row
    as the later one. *)
Lemma first_seen_email_wins_witness :
  (forall r, In r (rows (transform_customers id_clash_frame)) ->
     email r = Some "a@b.com" ->
     r = default_name (has_name id_clash_frame) id_clash_second)
  /\ ~ In (default_name (has_name id_clash_frame) id_clash_third)
          (rows (transform_customers id_clash_frame))
  /\ (In (default_name (has_name id_clash_frame) id_clash_second)
         (rows (transform_customers id_clash_frame)) <->
      ~ In (customer_id id_clash_second)
           (map customer_id
              (drop_duplicates cell_eqb email (valid_emails [id_clash_first]))))
  /\ rows (transform_customers dedup_scenario)
     = [mkCustomer (Some "1") (Some "Unknown") (Some "a@b.com")].
Proof.
  assert (Hid : customer_id id_clash_second <> customer_id id_clash_third)
    by discriminate.
  assert (Hok : email_ok id_clash_second = true) by (vm_compute; reflexivity).
  assert (Hpre : forall r, In r [id_clash_first] -> email r <> Some "a@b.com").
  { intros r [<- | []]. discriminate. }
  exact (first_seen_email_wins id_clash_frame [id_clash_first] [] []
           id_clash_second id_clash_third "a@b.com"
           eq_refl eq_refl eq_refl Hid Hok Hpre).
Defined.

End CustomerClaims.


(* ===================================================================== *)
(** ** Claims about the product transformer *)
(* ===================================================================== *)

Module ProductClaims.
Import Frame Py Products Scenarios.

Lemma category_mapping_lookup (k : string) :
  category_mapping !! k
  = if decide ("electronics" = k) then Some "Electronics"
    else if decide ("ELECTRONICS" = k) then Some "Electronics"
    else if decide ("books" = k) then Some "Books"
    else if decide ("BOOKS" = k) then Some "Books"
    else if decide ("home" = k) then Some "Home"
    else if decide ("HOME" = k) then Some "Home"
    else None.
Proof.
  unfold category_mapping. rewrite !lookup_insert, lookup_singleton.
  reflexivity.
Qed.

(** No lower-cased character is an upper-case letter. *)
Lemma lower_char_not_upper (c : ascii) :
  let n := nat_of_ascii (lower_char c) in
  (65 <=? n)%nat && (n <=? 90)%nat = false.
Proof.
  destruct c as [[] [] [] [] [] [] [] []]; vm_compute; reflexivity.
Qed.

Lemma str_lower_head_not_upper (s : string) (c : ascii) (rest : string) :
  str_lower s = String c rest ->
  (65 <=? nat_of_ascii c)%nat && (nat_of_ascii c <=? 90)%nat = false.
Proof.
  destruct s as [|c0 [|c1 [|c2 s]]]; cbn [str_lower]; [discriminate| | |];
    try (intros E; injection E as <- _; apply lower_char_not_upper).
  destruct (_ && _);
    intros E; injection E as <- _; [reflexivity | apply lower_char_not_upper].
Qed.

(** The upper-case keys of the table are never looked up. *)
Lemma str_lower_not_upper_key (s : string) :
  "ELECTRONICS" <> str_lower s /\ "BOOKS" <> str_lower s /\ "HOME" <> str_lower s.
Proof.
  repeat split; intros E; symmetry in E;
    apply str_lower_head_not_upper in E; discriminate.
Qed.

(** What the standardization does to a category, whatever its case. *)
Lemma standardize_category_spec (s : string) :
  standardize_category (Some s)
  = Some (if decide ("electronics" = str_lower s) then "Electronics"
          else if decide ("books" = str_lower s) then "Books"
          else if decide ("home" = str_lower s) then "Home"
          else s).
Proof.
  unfold standardize_category. rewrite category_mapping_lookup.
  destruct (str_lower_not_upper_key s) as (H1 & H2 & H3).
  repeat (destruct (decide _); try contradiction; try reflexivity).
Qed.

(** C7, as stated, fails: the raw category ["ElEcTrOnIcS"] does not fall
    through; the cleaned row carries ["Electronics"]. *)
Lemma mixed_case_category_is_canonicalized :
  raw_category mixed_case_product = Some "ElEcTrOnIcS"
  /\ map category (@transform_products iso_pandas [mixed_case_product])
     = [Some "Electronics"]
  /\ map category (@transform_products iso_pandas [mixed_case_product])
     <> [raw_category mixed_case_product].
Proof.
  split; [reflexivity|]. split; [vm_compute; reflexivity|].
  vm_compute. discriminate.
Qed.

(** C7, amended.  The raw category is lower-cased before the lookup, so the
    canonicalization does not depend on the case of the letters: a category
    whose lower-case form is [electronics], [books] or [home] gets the
    canonical spelling, every other category is left as it is, and a
    missing category stays missing; the product of raw category
    ["ElEcTrOnIcS"] is cleaned to category ["Electronics"]. *)
Theorem category_canonicalization_ignores_case `{Pandas} (s : string) :
  (str_lower s = "electronics" ->
     standardize_category (Some s) = Some "Electronics")
  /\ (str_lower s = "books" -> standardize_category (Some s) = Some "Books")
  /\ (str_lower s = "home" -> standardize_category (Some s) = Some "Home")
  /\ (str_lower s <> "electronics" -> str_lower s <> "books" ->
      str_lower s <> "home" -> standardize_category (Some s) = Some s)
  /\ standardize_category None = None
  /\ transform_products [mixed_case_product]
     = [mkProduct (Some 1%Z) (Some "Radio") (Some "Electronics") 5].
Proof.
  rewrite standardize_category_spec. repeat split.
  - intros ->. reflexivity.
  - intros ->. reflexivity.
  - intros ->. reflexivity.
  - intros H1 H2 H3.
    repeat (destruct (decide _); [congruence|]). reflexivity.
Qed.

(** The amended C7 at the upper-case and at the mixed-case spelling. *)
Lemma category_canonicalization_ignores_case_witness :
  standardize_category (Some "ElEcTrOnIcS") = Some "Electronics"
  /\ standardize_category (Some "Gadgets") = Some "Gadgets".
Proof.
  split.
  - apply (@category_canonicalization_ignores_case iso_pandas "ElEcTrOnIcS").
    reflexivity.
  - apply (@category_canonicalization_ignores_case iso_pandas "Gadgets");
      discriminate.
Defined.

(** C9.  The price is coerced and filtered after the two deduplications:
    in each of three batches the second row has a price in range, the first
    row wins the deduplication (by [product_id], or by name and
    standardized category) and is then dropped for its price (out of range,
    or missing), so that no row of the cleaned frame carries the
    [product_id] of the second row. *)
Theorem valid_price_lost_behind_earlier_duplicate `{Pandas} :
  (exists first second,
     shadowed_by_id = [first; second]
     /\ raw_product_id first = raw_product_id second
     /\ price_in_range (to_numeric (raw_price first)) = false
     /\ PrimFloat.is_nan (to_numeric (raw_price second)) = false
     /\ price_in_range (to_numeric (raw_price second)) = true
     /\ forall r, In r (transform_products shadowed_by_id) ->
          product_id r <> raw_product_id second)
  /\ (exists first second,
     shadowed_by_pair = [first; second]
     /\ raw_product_id first <> raw_product_id second
     /\ raw_name (standardize first) = raw_name (standardize second)
     /\ raw_category (standardize first) = raw_category (standardize second)
     /\ price_in_range (to_numeric (raw_price first)) = false
     /\ PrimFloat.is_nan (to_numeric (raw_price second)) = false
     /\ price_in_range (to_numeric (raw_price second)) = true
     /\ forall r, In r (transform_products shadowed_by_pair) ->
          product_id r <> raw_product_id second)
  /\ (exists first second,
     shadowed_by_missing_price = [first; second]
     /\ raw_product_id first = raw_product_id second
     /\ PrimFloat.is_nan (to_numeric (raw_price first)) = true
     /\ PrimFloat.is_nan (to_numeric (raw_price second)) = false
     /\ price_in_range (to_numeric (raw_price second)) = true
     /\ forall r, In r (transform_products shadowed_by_missing_price) ->
          product_id r <> raw_product_id second).
Proof.
  repeat split.
  - do 2 eexists. split; [reflexivity|].
    repeat split; try reflexivity. intros r Hr. vm_compute in Hr. contradiction.
  - do 2 eexists. split; [reflexivity|].
    repeat split; try reflexivity; try discriminate.
    intros r Hr. vm_compute in Hr. contradiction.
  - do 2 eexists. split; [reflexivity|].
    repeat split; try reflexivity. intros r Hr. vm_compute in Hr. contradiction.
Qed.

End ProductClaims.

(* ===================================================================== *)
(** ** Claims about the referential-integrity filter *)
(* ===================================================================== *)

Module IntegrityClaims.
Import Integrity.

(** C2.  A transaction is in the output of the filter exactly when it is in
    the input, its [customer_id] is the [customer_id] of a cleaned customer
    and its [product_id] is the [product_id] of a cleaned product; the
    output is the input without the other transactions, in input order. *)
Theorem referential_integrity_filter
    (customers_df : list Customers.Customer)
    (products_df : list Products.Product)
    (transactions_df : list Transactions.Transaction) :
  (forall t,
     In t (validate_referential_integrity customers_df products_df transactions_df)
     <-> In t transactions_df
         /\ In (Transactions.customer_id t) (map Customers.customer_id customers_df)
         /\ In (Transactions.product_id t) (map Products.product_id products_df))
  /\ validate_referential_integrity customers_df products_df transactions_df
     = List.filter
         (fun t =>
            bool_decide (Transactions.customer_id t
                           ∈ map Customers.customer_id customers_df)
            && bool_decide (Transactions.product_id t
                              ∈ map Products.product_id products_df))
         transactions_df.
Proof.
  assert (Hmem : forall {K} `{Countable K} (k : K) (l : list K),
             k ∈ (list_to_set l : gset K) <-> In k l).
  { intros K ? ? k l. rewrite elem_of_list_to_set. apply list_elem_of_In. }
  split.
  - intros t. unfold validate_referential_integrity.
    rewrite filter_In, andb_true_iff, !bool_decide_eq_true, !Hmem. tauto.
  - unfold validate_referential_integrity. apply filter_ext. intros t.
    f_equal; apply bool_decide_ext, elem_of_list_to_set.
Qed.

End IntegrityClaims.

(* ===================================================================== *)
(** ** Claims about the transaction transformer *)
(* ===================================================================== *)

Module TransactionClaims.
Import Frame Py Transactions Scenarios.

(** A row that [drop_duplicates] keeps is a row of the frame, whatever the
    equality of keys. *)
Lemma drop_duplicates_from_incl {A K} (eqb : K -> K -> bool) (key : A -> K)
    (l : list A) : forall seen x,
  In x (drop_duplicates_from eqb key seen l) -> In x l.
Proof.
  induction l as [|y l IH]; intros seen x; simpl; [tauto|].
  destruct (existsb _ seen).
  - intros Hx. right. now apply (IH seen).
  - simpl. intros [-> | Hx]; [now left | right; now apply (IH (key y :: seen))].
Qed.

Lemma string_length_append (s t : string) :
  String.length (s ++ t) = (String.length s + String.length t)%nat.
Proof. induction s as [|c s IH]; simpl; [reflexivity | now rewrite IH]. Qed.







Section WithPandas.
Context `{Pandas}.



Lemma dropna_date_In (l : list RawTransaction) (d : DatedTransaction) :
  In d (dropna_date (map apply_validate_date l)) <->
  exists r t, In r l /\ validate_date (raw_date r) = Some t
              /\ d = apply_validate_date r.
Proof.
  unfold dropna_date. rewrite filter_In, in_map_iff, bool_decide_eq_true. split.
  - intros [(r & <- & Hr) Hd]. simpl in Hd.
    destruct (validate_date (raw_date r)) as [t|] eqn:E; [|congruence].
    exists r, t. auto.
  - intros (r & t & Hr & E & ->). split; [eauto|]. simpl. congruence.
Qed.

(** Where a row of the output of [transform_transactions] comes from. *)
Lemma transform_transactions_In (df : list RawTransaction)
    (out : list Transaction) (t : Transaction) :
  transform_transactions df = Ok out -> In t out ->
  exists r ts,
    In r df /\ all_missing r = false
    /\ validate_date (raw_date r) = Some ts
    /\ t = mkTransaction (raw_transaction_id r) (raw_customer_id r)
                         (raw_product_id r) (to_numeric (raw_amount r))
                         (Some (strftime_ymd ts))
    /\ PrimFloat.is_nan (amount t) = false
    /\ amount_in_range (amount t) = true.
Proof.
  unfold transform_transactions. destruct (is_datetime_column _); [|discriminate].
  intros E Ht. injection E as <-.
  apply in_map_iff in Ht. destruct Ht as (c & <- & Hc).
  unfold keep_amount_in_range, dropna_amount in Hc.
  apply filter_In in Hc. destruct Hc as [Hc Hrange].
  apply filter_In in Hc. destruct Hc as [Hc Hnan].
  apply in_map_iff in Hc. destruct Hc as (d & <- & Hd).
  do 2 apply drop_duplicates_from_incl in Hd.
  apply dropna_date_In in Hd. destruct Hd as (r & ts & Hr & Ets & ->).
  apply filter_In in Hr. destruct Hr as [Hr Hall].
  exists r, ts. simpl in *.
  apply negb_true_iff in Hall, Hnan.
  split; [assumption|]. split; [assumption|]. split; [assumption|].
  split; [|split; assumption].
  unfold render, coerce_amount, apply_validate_date. simpl. now rewrite Ets.
Qed.

Lemma accepted_dates_In (applied : list DatedTransaction) (t : Timestamp) :
  In t (accepted_dates applied) <->
  exists d, In d applied /\ date d = Some t.
Proof.
  unfold accepted_dates. rewrite in_flat_map. split.
  - intros (d & Hd & Ht). exists d. split; [exact Hd|].
    destruct (date d) as [u|]; [|contradiction].
    destruct Ht as [-> | []]. reflexivity.
  - intros (d & Hd & Ed). exists d. split; [exact Hd|]. rewrite Ed. now left.
Qed.

(** The column is a datetime column exactly when it holds a timestamp and
    all its timestamps are of one time zone. *)
Lemma is_datetime_column_true_iff (applied : list DatedTransaction) :
  is_datetime_column applied = true <->
  (exists t, In t (accepted_dates applied))
  /\ (forall t u, In t (accepted_dates applied) ->
        In u (accepted_dates applied) -> zone t = zone u).
Proof.
  unfold is_datetime_column.
  destruct (accepted_dates applied) as [|t others].
  - split; [discriminate|]. intros [(t & []) _].
  - rewrite forallb_forall. split.
    + intros Hall. split; [exists t; now left|].
      assert (Hz : forall u, In u (t :: others) -> zone u = zone t).
      { intros u [<- | Hu]; [reflexivity|].
        apply Hall in Hu. now apply bool_decide_eq_true in Hu. }
      intros a b Ha Hb. now rewrite (Hz a Ha), (Hz b Hb).
    + intros [_ Hz] u Hu. apply bool_decide_eq_true.
      apply Hz; [now right | now left].
Qed.




(** The three frames of the amount scenario, for parsers that read the
    date as pandas does. *)
Lemma transform_amount_scenario :
  parse_datetime "2024-01-15" = Some january_15 ->
  transform_transactions [one_transaction 10001 "2024-01-15"] = Ok []
  /\ transform_transactions [one_transaction 10000 "2024-01-15"]
     = Ok [mkTransaction (Some "t1") (Some "c1") (Some 1%Z) 10000
                         (Some "2024-01-15")]
  /\ transform_transactions [one_transaction 0 "2024-01-15"] = Ok [].
Proof.
  intros H2. repeat split; unfold transform_transactions, one_transaction;
    cbv -[parse_datetime]; rewrite H2; vm_compute; reflexivity.
Qed.

(** C5.  Of the rows whose amount coerces to a number [v], the amount
    steps keep exactly those with [0 < v <= 10000]; a row whose amount does
    not coerce is dropped; every row of the output of the transformer has
    an amount in that range; and the transformer rejects amount 10001.00,
    keeps amount 10000.00 and rejects amount 0.00 (with a parser that reads
    the date of the scenario rows as pandas does). *)
Theorem amount_filter (l : list DatedTransaction) :
  (forall d, In d l ->
     PrimFloat.is_nan (to_numeric (dated_amount d)) = false ->
     (In (coerce_amount d)
         (keep_amount_in_range (dropna_amount (map coerce_amount l)))
      <-> PrimFloat.ltb 0 (to_numeric (dated_amount d)) = true
          /\ PrimFloat.leb (to_numeric (dated_amount d)) 10000 = true))
  /\ (forall d, In d l ->
        PrimFloat.is_nan (to_numeric (dated_amount d)) = true ->
        ~ In (coerce_amount d)
             (keep_amount_in_range (dropna_amount (map coerce_amount l))))
  /\ (forall df out t,
        transform_transactions df = Ok out -> In t out ->
        PrimFloat.ltb 0 (amount t) = true
        /\ PrimFloat.leb (amount t) 10000 = true)
  /\ amount_in_range 10001 = false
  /\ amount_in_range 10000 = true
  /\ amount_in_range 0 = false
  /\ (parse_datetime "2024-01-15" = Some january_15 ->
      transform_transactions [one_transaction 10001 "2024-01-15"] = Ok []
      /\ transform_transactions [one_transaction 10000 "2024-01-15"]
         = Ok [mkTransaction (Some "t1") (Some "c1") (Some 1%Z) 10000
                             (Some "2024-01-15")]
      /\ transform_transactions [one_transaction 0 "2024-01-15"] = Ok []).
Proof.
  unfold keep_amount_in_range, dropna_amount.
  split; [|split; [|split]].
  - intros d Hd Hnan. rewrite !filter_In. simpl. rewrite Hnan.
    unfold amount_in_range. rewrite andb_true_iff. split; [tauto|].
    intros Hv. repeat split; try tauto. now apply in_map.
  - intros d Hd Hnan. rewrite !filter_In. simpl. rewrite Hnan.
    intros [[_ Hc] _]. discriminate.
  - intros df out t E Ht.
    destruct (transform_transactions_In df out t E Ht)
      as (r & ts & _ & _ & _ & _ & _ & Hrange).
    unfold amount_in_range in Hrange. now apply andb_true_iff in Hrange.
  - split; [reflexivity|]. split; [reflexivity|]. split; [reflexivity|].
    exact transform_amount_scenario.
Qed.

End WithPandas.

(** C5 at the stand-in parser. *)
Lemma amount_filter_witness :
  @transform_transactions iso_pandas [one_transaction 10001 "2024-01-15"] = Ok []
  /\ @transform_transactions iso_pandas [one_transaction 10000 "2024-01-15"]
     = Ok [mkTransaction (Some "t1") (Some "c1") (Some 1%Z) 10000
                         (Some "2024-01-15")]
  /\ @transform_transactions iso_pandas [one_transaction 0 "2024-01-15"] = Ok [].
Proof.
  destruct (@amount_filter iso_pandas []) as (_ & _ & _ & _ & _ & _ & Hscenario).
  apply Hscenario; reflexivity.
Defined.

End TransactionClaims.

(* ===================================================================== *)
(** ** Claims about the orchestrator, the load and the reconciliation *)
(* ===================================================================== *)

Module PipelineClaims.
Import Py Store Pipeline Outcome Scenarios.

Ltac unfold_pipeline :=
  cbv [run_pipeline run_pipeline_on guarded pipeline_steps connect_database
       create_tables raise_if raise connect_raises create_raises healthy
       extract_data transform_customers_step transform_products_step
       transform_transactions_step validate_referential_integrity_step
       load_customers load_products load_transactions verify_and_check
       verify_data_loaded check_etl_pipeline
       try_except try_finally lift print get_session put_session commit close
       mbind mret M_bind M_ret bind ret start
       disk session connected stdout customers products transactions].

(** A run returns what its stages return, leaves the tables of its
    progress and no open connection, and prints lines that do not depend
    on what the database file held. *)
Lemma run_pipeline_on_outcome `{Pandas} (database : Database)
    (db_path : string) (files : result Files) :
  exists out : list string, forall t : Tables,
    run_pipeline_on database db_path files (start t)
    = (snd (stages_on database files),
       mkWorld (tables_after (fst (stages_on database files)) t)
               (tables_after (fst (stages_on database files)) t) false out).
Proof.
  exists (stdout (snd (run_pipeline_on database db_path files
                         (start (mkTables [] [] []))))).
  intros t. unfold stages_on, stages, transform_customers_checked,
    transform_products_checked.
  destruct database as [[ec|] [ed|]]; try (unfold_pipeline; reflexivity).
  cbv [connect_raises create_raises].
  destruct files as [f|e]; [|unfold_pipeline; reflexivity].
  destruct (Customers.email_column_is_text (customers_csv f)) eqn:Etc;
    [|unfold_pipeline; rewrite Etc; reflexivity].
  destruct (Products.category_column_is_text (products_csv f)) eqn:Etp;
    [|unfold_pipeline; rewrite Etc, Etp; reflexivity].
  destruct (Transactions.transform_transactions (transactions_csv f))
    as [tx|e] eqn:Et;
    [|unfold_pipeline; rewrite Etc, Etp, Et; reflexivity].
  destruct (insert_all insert_customer [] _) as [rc|e] eqn:Ec;
    [|unfold_pipeline; rewrite Etc, Etp, Et, Ec; reflexivity].
  destruct (insert_all insert_product [] _) as [rp|e] eqn:Ep;
    [|unfold_pipeline; rewrite Etc, Etp, Et, Ec, Ep; reflexivity].
  destruct (insert_all insert_transaction [] _) as [rt|e] eqn:Ex;
    [|unfold_pipeline; rewrite Etc, Etp, Et, Ec, Ep, Ex; reflexivity].
  unfold_pipeline. rewrite Etc, Etp, Et, Ec, Ep, Ex.
  cbv [n_customers n_products n_transactions].
  destruct (andb _ _); reflexivity.
Qed.

(** The same, on a database file that opens and takes the statements of
    [create_tables]. *)
Lemma run_pipeline_outcome `{Pandas} (db_path : string) (files : result Files) :
  exists out : list string, forall t : Tables,
    run_pipeline db_path files (start t)
    = (snd (stages files),
       mkWorld (tables_after (fst (stages files)) t)
               (tables_after (fst (stages files)) t) false out).
Proof. exact (run_pipeline_on_outcome healthy db_path files). Qed.

Lemma tables_after_idempotent (p : progress) (t : Tables) :
  tables_after p (tables_after p t) = tables_after p t.
Proof. destruct p; reflexivity. Qed.

(** Rows are appended one for each row of the frame. *)
Lemma insert_all_Forall2 {Row R} (insert : list Row -> R -> result (list Row))
    (stored : R -> Row -> Prop) :
  (forall tbl r tbl', insert tbl r = Ok tbl' ->
     exists row, tbl' = tbl ++ [row] /\ stored r row) ->
  forall df tbl tbl', insert_all insert tbl df = Ok tbl' ->
  exists rows, tbl' = tbl ++ rows /\ Forall2 stored df rows.
Proof.
  intros Hins. induction df as [|r df IH]; intros tbl tbl' E; simpl in E.
  - injection E as <-. exists []. split; [now rewrite app_nil_r | constructor].
  - destruct (insert tbl r) as [tbl1|e] eqn:E1; [|discriminate].
    apply Hins in E1. destruct E1 as (row & -> & Hrow).
    apply IH in E. destruct E as (rows & -> & Hrows).
    exists (row :: rows). split; [now rewrite <- app_assoc | now constructor].
Qed.

Lemma insert_customer_Ok tbl r tbl' :
  insert_customer tbl r = Ok tbl' ->
  exists row, tbl' = tbl ++ [row] /\ stored_customer r row.
Proof.
  unfold insert_customer, stored_customer.
  destruct (Customers.name r) as [n|]; [|discriminate].
  destruct (Customers.email r) as [e|]; [|discriminate].
  destruct (bool_decide _); [discriminate|].
  destruct (key_taken _ _); [discriminate|].
  intros E. injection E as <-. eexists. split; [reflexivity|]. simpl. auto.
Qed.

Lemma insert_product_Ok tbl r tbl' :
  insert_product tbl r = Ok tbl' ->
  exists row, tbl' = tbl ++ [row] /\ stored_product r row.
Proof.
  unfold insert_product, stored_product.
  destruct (negb (binds _)); [discriminate|].
  destruct (Products.name r) as [n|]; [|discriminate].
  destruct (Products.category r) as [c|]; [|discriminate].
  destruct (PrimFloat.is_nan _); [discriminate|].
  destruct (Products.product_id r) as [i|].
  - destruct (bool_decide _); [discriminate|].
    intros E. injection E as <-. eexists. split; [reflexivity|]. simpl. auto.
  - intros E. injection E as <-. eexists. split; [reflexivity|]. simpl. auto.
Qed.

Lemma insert_transaction_Ok tbl r tbl' :
  insert_transaction tbl r = Ok tbl' ->
  exists row, tbl' = tbl ++ [row] /\ stored_transaction r row.
Proof.
  unfold insert_transaction, stored_transaction.
  destruct (negb (binds _)); [discriminate|].
  destruct (Transactions.customer_id r) as [c|]; [|discriminate].
  destruct (Transactions.product_id r) as [i|]; [|discriminate].
  destruct (PrimFloat.is_nan _); [discriminate|].
  destruct (Transactions.transaction_date r) as [d|]; [|discriminate].
  destruct (key_taken _ _); [discriminate|].
  intros E. injection E as <-. eexists. split; [reflexivity|]. simpl. auto.
Qed.

Lemma load_rows_stored {Row R} (insert : list Row -> R -> result (list Row))
    (stored : R -> Row -> Prop) (df : list R) (rows : list Row) :
  (forall tbl r tbl', insert tbl r = Ok tbl' ->
     exists row, tbl' = tbl ++ [row] /\ stored r row) ->
  insert_all insert [] df = Ok rows -> Forall2 stored df rows.
Proof.
  intros Hins E. apply (insert_all_Forall2 insert stored Hins) in E.
  destruct E as (rows' & -> & Hrows). exact Hrows.
Qed.



(** C8.  A second run on the same files, started on the store that the
    first run left, returns or raises as the first did, prints the same
    lines (the counts of every stage among them) and leaves the store as
    the first run left it. *)
Theorem run_twice `{Pandas} (db_path : string) (files : result Files)
    (t : Tables) :
  fst (run_pipeline db_path files
         (start (disk (snd (run_pipeline db_path files (start t))))))
  = fst (run_pipeline db_path files (start t))
  /\ stdout (snd (run_pipeline db_path files
                    (start (disk (snd (run_pipeline db_path files (start t)))))))
     = stdout (snd (run_pipeline db_path files (start t)))
  /\ disk (snd (run_pipeline db_path files
                  (start (disk (snd (run_pipeline db_path files (start t)))))))
     = disk (snd (run_pipeline db_path files (start t))).
Proof.
  destruct (run_pipeline_outcome db_path files) as (out & Hrun).
  rewrite (Hrun t). simpl snd. cbv [disk]. rewrite Hrun. simpl.
  repeat split. apply tables_after_idempotent.
Qed.

Lemma counts_differ (a b : Counts) :
  a <> b ->
  Nat.eqb (n_customers a) (n_customers b)
  && Nat.eqb (n_products a) (n_products b)
  && Nat.eqb (n_transactions a) (n_transactions b) = false.
Proof.
  intros Hne. destruct a as [a1 a2 a3], b as [b1 b2 b3]. simpl.
  destruct (Nat.eqb_spec a1 b1) as [->|]; [|reflexivity].
  destruct (Nat.eqb_spec a2 b2) as [->|]; [|reflexivity].
  destruct (Nat.eqb_spec a3 b3) as [->|]; [|reflexivity].
  now contradiction Hne.
Qed.

(** C10.  When the transformed counts differ from the loaded counts,
    [check_etl_pipeline] returns without raising, changes nothing but the
    output, and prints the three lines of the entities, each ending in
    PASS or FAIL (FAIL for an entity whose counts differ), and the FAIL
    status; on an open connection, steps 7 and 8 of the run inside the
    [try] of [run_pipeline] then return, print the completion line, and the
    connection is closed. *)
Theorem reconciliation_mismatch_is_only_reported
    (transformed_counts loaded_counts : Counts) (w : World) :
  transformed_counts <> loaded_counts ->
  check_etl_pipeline transformed_counts loaded_counts w
  = (Ok tt,
     mkWorld (disk w) (session w) (connected w)
       (stdout w ++
        [ nl +:+ bar;
          "ETL PIPELINE VALIDATION CHECK";
          bar;
          report_line "Customers" (n_customers transformed_counts)
            (n_customers loaded_counts)
            (Nat.eqb (n_customers transformed_counts) (n_customers loaded_counts));
          report_line "Products" (n_products transformed_counts)
            (n_products loaded_counts)
            (Nat.eqb (n_products transformed_counts) (n_products loaded_counts));
          report_line "Transactions" (n_transactions transformed_counts)
            (n_transactions loaded_counts)
            (Nat.eqb (n_transactions transformed_counts)
                     (n_transactions loaded_counts));
          nl +:+ "ETL Pipeline Status: FAIL - Data mismatch detected";
          "Pipeline is broken - investigate the loading process";
          bar ]))
  /\ (forall entity a b, a <> b ->
        report_line entity a b (Nat.eqb a b)
        = entity +:+ ": " +:+ str_of_nat a +:+ " transformed vs "
          +:+ str_of_nat b +:+ " loaded - FAIL")
  /\ (connected w = true ->
      loaded_counts
      = mkCounts (length (customers (session w))) (length (products (session w)))
                 (length (transactions (session w))) ->
      exists report,
        check_etl_pipeline transformed_counts loaded_counts w
        = (Ok tt, mkWorld (disk w) (session w) (connected w) (stdout w ++ report))
        /\ guarded (verify_and_check transformed_counts) w
           = (Ok tt,
              mkWorld (disk w) (disk w) false
                (stdout w
                 ++ [ "Verifying data in database...";
                      "Database counts: "
                      +:+ str_of_nat (n_customers loaded_counts) +:+ " customers, "
                      +:+ str_of_nat (n_products loaded_counts) +:+ " products, "
                      +:+ str_of_nat (n_transactions loaded_counts)
                      +:+ " transactions" ]
                 ++ report
                 ++ [ "ETL Pipeline completed!"; bar;
                      "Database connection closed" ]))).
Proof.
  intros Hne. pose proof (counts_differ _ _ Hne) as Hfalse.
  assert (Hcheck : forall w0 : World,
    check_etl_pipeline transformed_counts loaded_counts w0
    = (Ok tt,
       mkWorld (disk w0) (session w0) (connected w0)
         (stdout w0 ++
          [ nl +:+ bar;
            "ETL PIPELINE VALIDATION CHECK";
            bar;
            report_line "Customers" (n_customers transformed_counts)
              (n_customers loaded_counts)
              (Nat.eqb (n_customers transformed_counts) (n_customers loaded_counts));
            report_line "Products" (n_products transformed_counts)
              (n_products loaded_counts)
              (Nat.eqb (n_products transformed_counts) (n_products loaded_counts));
            report_line "Transactions" (n_transactions transformed_counts)
              (n_transactions loaded_counts)
              (Nat.eqb (n_transactions transformed_counts)
                       (n_transactions loaded_counts));
            nl +:+ "ETL Pipeline Status: FAIL - Data mismatch detected";
            "Pipeline is broken - investigate the loading process";
            bar ]))).
  { intros w0.
    cbv [check_etl_pipeline print mbind M_bind bind disk session connected stdout].
    rewrite Hfalse. repeat rewrite <- app_assoc. reflexivity. }
  split; [apply Hcheck|]. split.
  - intros entity a b Hab. unfold report_line.
    apply Nat.eqb_neq in Hab. now rewrite Hab.
  - intros Hconn Hloaded. destruct w as [d se c o].
    simpl in Hconn, Hloaded. subst c loaded_counts.
    eexists. split; [apply Hcheck|].
    cbv [guarded verify_and_check verify_data_loaded try_except try_finally
         get_session print mbind mret M_bind M_ret bind ret close
         disk session connected stdout].
    rewrite Hcheck. cbv [disk session connected stdout n_customers n_products
                         n_transactions].
    repeat rewrite <- app_assoc. reflexivity.
Qed.

(** C10 at counts 2, 1, 1 against a store of empty tables. *)
Lemma reconciliation_mismatch_is_only_reported_witness :
  fst (check_etl_pipeline two_one_one (mkCounts 0 0 0) connected_empty) = Ok tt
  /\ fst (guarded (verify_and_check two_one_one) connected_empty) = Ok tt
  /\ connected (snd (guarded (verify_and_check two_one_one) connected_empty))
     = false.
Proof.
  assert (Hne : two_one_one <> mkCounts 0 0 0) by discriminate.
  destruct (reconciliation_mismatch_is_only_reported
              two_one_one (mkCounts 0 0 0) connected_empty Hne)
    as (Hcheck & _ & Hrun).
  destruct (Hrun eq_refl eq_refl) as (report & _ & Hguarded).
  rewrite Hcheck, Hguarded. repeat split.
Defined.

End PipelineClaims.

(* ===================================================================== *)
(** ** More about the customer transformer *)
(* ===================================================================== *)

Module CustomerExtras.
Import Frame Regex FrameFacts RegexFacts CustomerFacts.

Lemma isin_false_iff (values : list string) (s : string) :
  isin values s = false <-> ~ In s values.
Proof.
  unfold isin. destruct (existsb (String.eqb s) values) eqn:E.
  - split; [discriminate|]. intros Hn. exfalso. apply Hn.
    apply existsb_exists in E. destruct E as (x & Hx & Ex).
    apply String.eqb_eq in Ex. now subst.
  - split; [|reflexivity]. intros _ Hin.
    assert (Ht : existsb (String.eqb s) values = true).
    { apply existsb_exists. exists s. split; [assumption | apply String.eqb_refl]. }
    congruence.
Qed.

(** What [email_pattern] accepts under [str.match]: the addresses with a
    local part of one or more characters of [[a-zA-Z0-9._%+-]], an at
    sign, a domain of one or more characters of [[a-zA-Z0-9.-]], a dot and
    at least two letters, and the same addresses followed by one final
    newline; nothing else. *)
Theorem email_pattern_accepts (e : string) :
  str_match_email e = true <->
  spec_email_pattern (list_ascii_of_string e)
  \/ exists p, list_ascii_of_string e = p ++ [newline] /\ spec_email_pattern p.
Proof. exact (str_match_email_spec e). Qed.

(** Every row of a cleaned customers frame has an email, which is no
    blacklist literal and is an address of the pattern (possibly followed
    by one final newline); no two rows share an email or a [customer_id];
    and the frame has a [name] column. *)
Theorem cleaned_customers_invariant (df : CustomerFrame) :
  has_name (transform_customers df) = true
  /\ (forall r, In r (rows (transform_customers df)) ->
        exists e, email r = Some e
          /\ ~ In e invalid_patterns
          /\ (spec_email_pattern (list_ascii_of_string e)
              \/ exists p, list_ascii_of_string e = p ++ [newline]
                           /\ spec_email_pattern p))
  /\ List.NoDup (map email (rows (transform_customers df)))
  /\ List.NoDup (map customer_id (rows (transform_customers df))).
Proof.
  destruct (transform_customers_invariant df) as (Hrows & He & Hc).
  split; [reflexivity|]. split; [|split; assumption].
  intros r Hr. destruct (Hrows r Hr) as (e & Ee & Hb & Hm).
  exists e. split; [assumption|]. split.
  - now apply isin_false_iff.
  - now apply str_match_email_spec.
Qed.

Lemma filter_sublist {A} (p : A -> bool) (l : list A) :
  sublist (List.filter p l) l.
Proof.
  induction l as [|x l IH]; simpl; [constructor|].
  destruct (p x); now constructor.
Qed.

Lemma drop_duplicates_from_sublist {A K} (eqb : K -> K -> bool) (key : A -> K)
    (l : list A) : forall seen, sublist (drop_duplicates_from eqb key seen l) l.
Proof.
  induction l as [|x l IH]; intros seen; simpl; [constructor|].
  destruct (existsb _ seen); constructor; apply IH.
Qed.

(** The transformer neither reorders rows nor makes rows up: the cleaned
    rows are rows of the raw frame, in the order of the raw frame, and only
    their name is touched, when the raw frame has no [name] column. *)
Theorem cleaned_customers_are_raw_rows_in_order (df : CustomerFrame) :
  exists kept : list Customer,
    sublist kept (rows df)
    /\ rows (transform_customers df) = map (default_name (has_name df)) kept
    /\ (has_name df = true -> rows (transform_customers df) = kept)
    /\ (has_name df = false ->
        forall r, In r (rows (transform_customers df)) ->
          name r = Some "Unknown").
Proof.
  eexists. split; [|split; [apply transform_customers_rows|split]].
  - etransitivity; [apply drop_duplicates_from_sublist|].
    etransitivity; [apply drop_duplicates_from_sublist|].
    rewrite valid_emails_filter. apply filter_sublist.
  - intros Hn. rewrite transform_customers_rows, Hn. simpl.
    apply map_id.
  - intros Hn r Hr. rewrite transform_customers_rows, Hn in Hr.
    apply in_map_iff in Hr. destruct Hr as (x & <- & _). reflexivity.
Qed.

Lemma filter_all_true {A} (p : A -> bool) (l : list A) :
  (forall x, In x l -> p x = true) -> List.filter p l = l.
Proof.
  induction l as [|x l IH]; intros Hall; simpl; [reflexivity|].
  rewrite (Hall x) by now left. f_equal. apply IH. intros y Hy.
  apply Hall. now right.
Qed.

(** [drop_duplicates] changes nothing in a frame without duplicates. *)
Lemma drop_duplicates_from_NoDup_id {A K} `{EqDecision K} (key : A -> K)
    (l : list A) : forall seen,
  List.NoDup (map key l) -> (forall x, In x l -> ~ In (key x) seen) ->
  drop_duplicates_from cell_eqb key seen l = l.
Proof.
  induction l as [|x l IH]; intros seen N Hseen; simpl; [reflexivity|].
  simpl in N. apply NoDup_cons_iff in N. destruct N as [Nx N].
  destruct (existsb _ seen) eqn:E.
  - apply existsb_cell_eqb in E. exfalso. apply (Hseen x); [now left | exact E].
  - f_equal. apply IH; [assumption|]. intros y Hy [Ey | Hin].
    + apply Nx. rewrite Ey. now apply in_map.
    + apply (Hseen y); [now right | exact Hin].
Qed.

(** Cleaning a cleaned customers frame changes nothing. *)
Theorem transform_customers_idempotent (df : CustomerFrame) :
  transform_customers (transform_customers df) = transform_customers df.
Proof.
  destruct (transform_customers_invariant df) as (Hrows & He & Hc).
  remember (rows (transform_customers df)) as l eqn:El.
  assert (Hout : transform_customers df = mkCustomerFrame true l)
    by (subst l; reflexivity).
  rewrite Hout. unfold transform_customers at 1. cbn [rows has_name].
  fold (valid_emails l). f_equal.
  assert (Hv : valid_emails l = l).
  { rewrite valid_emails_filter. apply filter_all_true. intros r Hr.
    destruct (Hrows r Hr) as (e & Ee & Hb & Hm).
    unfold email_ok. now rewrite Ee, Hb, Hm. }
  rewrite Hv. unfold drop_duplicates.
  rewrite (drop_duplicates_from_NoDup_id email l []) by auto.
  rewrite (drop_duplicates_from_NoDup_id customer_id l []) by auto.
  apply map_id.
Qed.

End CustomerExtras.

(* ===================================================================== *)
(** ** More about the product transformer *)
(* ===================================================================== *)

Module ProductExtras.
Import Frame Py Products FrameFacts CustomerFacts CustomerExtras ProductClaims.

Lemma NoDup_map_filter {A B} (f : A -> B) (p : A -> bool) (l : list A) :
  List.NoDup (map f l) -> List.NoDup (map f (List.filter p l)).
Proof.
  induction l as [|x l IH]; simpl; intros N; [constructor|].
  apply NoDup_cons_iff in N. destruct N as [Nx N].
  destruct (p x); [|now apply IH]. simpl. constructor; [|now apply IH].
  rewrite in_map_iff. intros (y & Ey & Hy). apply filter_In in Hy.
  apply Nx. rewrite <- Ey. apply in_map. tauto.
Qed.

(** Standardizing a standardized category changes nothing. *)
Lemma standardize_category_idempotent (c : option string) :
  standardize_category (standardize_category c) = standardize_category c.
Proof.
  destruct c as [s|]; [|reflexivity].
  rewrite (standardize_category_spec s).
  destruct (decide ("electronics" = str_lower s)); [vm_compute; reflexivity|].
  destruct (decide ("books" = str_lower s)); [vm_compute; reflexivity|].
  destruct (decide ("home" = str_lower s)); [vm_compute; reflexivity|].
  rewrite (standardize_category_spec s).
  repeat (destruct (decide _); [contradiction|]). reflexivity.
Qed.

Lemma transform_products_unfold `{Pandas} (df : list RawProduct) :
  transform_products df
  = List.filter (fun r => price_in_range (price r))
      (List.filter (fun r => negb (PrimFloat.is_nan (price r)))
         (map coerce_price
            (drop_duplicates cell_eqb (fun r => (raw_name r, raw_category r))
               (drop_duplicates cell_eqb raw_product_id (map standardize df))))).
Proof. reflexivity. Qed.

(** Every cleaned product has a price that is a number with
    [0 < price <= 10000] and a category that the standardization leaves as
    it is; no two cleaned products share a [product_id], or a name and a
    category; and the cleaned products are standardized raw rows, in the
    order of the raw frame. *)
Theorem cleaned_products_invariant `{Pandas} (df : list RawProduct) :
  (forall p, In p (transform_products df) ->
     PrimFloat.is_nan (price p) = false
     /\ PrimFloat.ltb 0 (price p) = true
     /\ PrimFloat.leb (price p) 10000 = true
     /\ standardize_category (category p) = category p)
  /\ List.NoDup (map product_id (transform_products df))
  /\ List.NoDup (map (fun p => (name p, category p)) (transform_products df))
  /\ exists kept, sublist kept (map standardize df)
                  /\ transform_products df = map coerce_price kept.
Proof.
  rewrite transform_products_unfold.
  set (deduped := drop_duplicates cell_eqb (fun r => (raw_name r, raw_category r))
                    (drop_duplicates cell_eqb raw_product_id (map standardize df))).
  assert (Hid : List.NoDup (map raw_product_id deduped)).
  { apply drop_duplicates_from_keeps_NoDup, drop_duplicates_NoDup. }
  assert (Hpair : List.NoDup (map (fun r => (raw_name r, raw_category r)) deduped)).
  { apply drop_duplicates_NoDup. }
  split; [|split; [|split]].
  - intros p Hp. apply filter_In in Hp. destruct Hp as [Hp Hrange].
    apply filter_In in Hp. destruct Hp as [Hp Hnan].
    apply negb_true_iff in Hnan. unfold price_in_range in Hrange.
    apply andb_true_iff in Hrange. destruct Hrange as [Hlo Hhi].
    repeat split; auto.
    apply in_map_iff in Hp. destruct Hp as (r & <- & Hr).
    do 2 apply drop_duplicates_In in Hr.
    apply in_map_iff in Hr. destruct Hr as (r0 & <- & _). simpl.
    apply standardize_category_idempotent.
  - do 2 apply NoDup_map_filter. rewrite map_map. exact Hid.
  - do 2 apply NoDup_map_filter. rewrite map_map. exact Hpair.
  - rewrite !filter_map_swap. eexists. split; [|reflexivity].
    etransitivity; [apply filter_sublist|].
    etransitivity; [apply filter_sublist|].
    etransitivity; [apply drop_duplicates_from_sublist|].
    apply drop_duplicates_from_sublist.
Qed.

End ProductExtras.

(* ===================================================================== *)
(** ** More about the transaction transformer *)
(* ===================================================================== *)

Module TransactionExtras.
Import Frame Py Transactions FrameFacts CustomerFacts ProductExtras
       TransactionClaims Scenarios.

Section WithPandas.
Context `{Pandas}.

Lemma forallb_false_witness {A} (p : A -> bool) (l : list A) :
  forallb p l = false -> exists x, In x l /\ p x = false.
Proof.
  induction l as [|x l IH]; simpl; [discriminate|].
  destruct (p x) eqn:E; simpl.
  - intros Hl. destruct (IH Hl) as (y & Hy & Ey). exists y. auto.
  - intros _. exists x. auto.
Qed.

Lemma accepted_is_not_all_missing (r : RawTransaction) (t : Timestamp) :
  validate_date (raw_date r) = Some t -> all_missing r = false.
Proof.
  unfold all_missing. destruct (raw_date r) as [s|]; [|discriminate].
  intros _. destruct (raw_transaction_id r), (raw_customer_id r),
    (raw_product_id r), (raw_amount r); reflexivity.
Qed.

(** The timestamps of the column that [apply] builds are the accepted
    dates of the rows of the frame. *)
Lemma accepted_dates_of_frame (df : list RawTransaction) (t : Timestamp) :
  In t (accepted_dates
          (map apply_validate_date
             (List.filter (fun r => negb (all_missing r)) df))) <->
  exists r, In r df /\ validate_date (raw_date r) = Some t.
Proof.
  rewrite accepted_dates_In. split.
  - intros (d & Hd & Ed). apply in_map_iff in Hd.
    destruct Hd as (r & <- & Hr). apply filter_In in Hr. exists r. tauto.
  - intros (r & Hr & Ev). exists (apply_validate_date r). split; [|exact Ev].
    apply in_map, filter_In. split; [exact Hr|].
    now rewrite (accepted_is_not_all_missing r t Ev).
Qed.

Lemma is_datetime_column_false_iff (applied : list DatedTransaction) :
  is_datetime_column applied = false <->
  (forall t, ~ In t (accepted_dates applied))
  \/ exists t u, In t (accepted_dates applied) /\ In u (accepted_dates applied)
                 /\ zone t <> zone u.
Proof.
  split.
  - unfold is_datetime_column.
    destruct (accepted_dates applied) as [|t others]; [left; intros t []|].
    intros Hf. right. apply forallb_false_witness in Hf.
    destruct Hf as (u & Hu & Hz). apply bool_decide_eq_false in Hz.
    exists u, t. split; [now right|]. split; [now left | exact Hz].
  - intros Hcases. destruct (is_datetime_column applied) eqn:E; [|reflexivity].
    apply is_datetime_column_true_iff in E. destruct E as [(t & Ht) Hz].
    exfalso. destruct Hcases as [Hnone | (a & b & Ha & Hb & Hne)].
    + now apply Hnone in Ht.
    + now apply Hne, Hz.
Qed.

(** The transformer raises exactly when no row of the frame has a date
    that [validate_date] accepts, as on a frame without rows, or when two
    accepted dates are not of one time zone (one naive and one aware, or of
    two zones): it then raises the [AttributeError] of the [.dt] accessor,
    and it raises nothing else. *)
Theorem transform_transactions_raises_iff (df : list RawTransaction) :
  (transform_transactions df = Raised dt_error <->
   (forall r, In r df -> validate_date (raw_date r) = None)
   \/ exists r1 r2 t1 t2,
        In r1 df /\ In r2 df
        /\ validate_date (raw_date r1) = Some t1
        /\ validate_date (raw_date r2) = Some t2
        /\ zone t1 <> zone t2)
  /\ (forall e, transform_transactions df = Raised e -> e = dt_error)
  /\ transform_transactions [] = Raised dt_error.
Proof.
  split; [|split].
  - unfold transform_transactions.
    destruct (is_datetime_column _) eqn:E.
    + split; [discriminate|]. intros Hcases. exfalso.
      apply is_datetime_column_true_iff in E. destruct E as [(t & Ht) Hz].
      destruct Hcases as [Hnone | (r1 & r2 & t1 & t2 & H1 & H2 & E1 & E2 & Hne)].
      * apply accepted_dates_of_frame in Ht. destruct Ht as (r & Hr & Ev).
        rewrite (Hnone r Hr) in Ev. discriminate.
      * apply Hne, Hz; apply accepted_dates_of_frame; eauto.
    + split; [|reflexivity]. intros _.
      apply is_datetime_column_false_iff in E.
      destruct E as [Hnone | (t & u & Ht & Hu & Hne)].
      * left. intros r Hr.
        destruct (validate_date (raw_date r)) as [t|] eqn:Ev; [|reflexivity].
        exfalso. apply (Hnone t), accepted_dates_of_frame. eauto.
      * right. apply accepted_dates_of_frame in Ht, Hu.
        destruct Ht as (r1 & H1 & E1), Hu as (r2 & H2 & E2).
        exists r1, r2, t, u. auto.
  - intros e. unfold transform_transactions.
    destruct (is_datetime_column _); [discriminate|]. congruence.
  - reflexivity.
Qed.

Lemma transform_transactions_ids_NoDup (df : list RawTransaction)
    (out : list Transaction) :
  transform_transactions df = Ok out -> List.NoDup (map transaction_id out).
Proof.
  intros E. unfold transform_transactions in E.
  destruct (is_datetime_column _); [|discriminate]. injection E as <-.
  rewrite map_map. simpl.
  unfold keep_amount_in_range, dropna_amount.
  change (fun x : CoercedTransaction => coerced_transaction_id x)
    with coerced_transaction_id.
  do 2 apply NoDup_map_filter. rewrite map_map. simpl.
  apply (drop_duplicates_NoDup dated_transaction_id).
Qed.

Lemma transform_transactions_cells (df : list RawTransaction)
    (out : list Transaction) (t : Transaction) :
  transform_transactions df = Ok out -> In t out ->
  transaction_date t <> None /\ PrimFloat.is_nan (amount t) = false.
Proof.
  intros E Ht.
  destruct (transform_transactions_In df out t E Ht)
    as (r & ts & _ & _ & _ & -> & Hnan & _).
  split; [discriminate | exact Hnan].
Qed.

(** In the output of the transformer no two rows share a
    [transaction_id], every row has a [transaction_date], and every amount
    is a number. *)
Theorem cleaned_transactions_invariant (df : list RawTransaction)
    (out : list Transaction) :
  transform_transactions df = Ok out ->
  List.NoDup (map transaction_id out)
  /\ (forall t, In t out ->
        transaction_date t <> None /\ PrimFloat.is_nan (amount t) = false).
Proof.
  intros E. split.
  - now apply (transform_transactions_ids_NoDup df).
  - intros t. now apply (transform_transactions_cells df).
Qed.

End WithPandas.

(** The invariant at the frame of the date scenario. *)
Lemma cleaned_transactions_invariant_witness :
  List.NoDup [Some "t1"]
  /\ (forall t,
        In t [mkTransaction (Some "t1") (Some "c1") (Some 1%Z) 20
                            (Some "2024-01-15")] ->
        transaction_date t <> None /\ PrimFloat.is_nan (amount t) = false).
Proof.
  assert (E : @transform_transactions iso_pandas date_scenario
              = Ok [mkTransaction (Some "t1") (Some "c1") (Some 1%Z) 20
                                  (Some "2024-01-15")])
    by (vm_compute; reflexivity).
  exact (@cleaned_transactions_invariant iso_pandas date_scenario _ E).
Defined.

End TransactionExtras.

(* ===================================================================== *)
(** ** More about the load stage *)
(* ===================================================================== *)

Module LoadExtras.
Import Frame Py Store Outcome FrameFacts CustomerFacts ProductExtras
       TransactionClaims PipelineClaims.

Lemma key_taken_false_iff {K} `{EqDecision K} (k : option K)
    (col : list (option K)) :
  key_taken k col = false <-> k = None \/ ~ In k col.
Proof.
  unfold key_taken. destruct k as [x|].
  - rewrite bool_decide_eq_false, list_elem_of_In. split; [auto|].
    intros [E | Hn]; [discriminate | exact Hn].
  - split; auto.
Qed.

Lemma key_taken_snoc {K} `{EqDecision K} (k k' : option K)
    (col : list (option K)) :
  key_taken k col = false -> k <> k' -> key_taken k (col ++ [k']) = false.
Proof.
  rewrite !key_taken_false_iff. intros [E | Hn] Hne; [now left | right].
  rewrite in_app_iff. simpl. intros [Hin | [E | []]]; auto.
Qed.

Lemma NoDup_map_cons_inv {A B} (f : A -> B) (x : A) (l : list A) :
  List.NoDup (map f (x :: l)) ->
  List.NoDup (map f l) /\ forall y, In y l -> f y <> f x.
Proof.
  simpl. intros N. apply NoDup_cons_iff in N. destruct N as [Nx N].
  split; [exact N|]. intros y Hy E. apply Nx. rewrite <- E. now apply in_map.
Qed.

(** The inserts of a frame of customers whose emails are present and
    different from one another and from the emails of the table, and whose
    [customer_id]s are different from one another and from those of the
    table. *)
Lemma insert_all_customers_outcome (l : list Customers.Customer) :
  forall tbl : list CustomerRow,
  List.NoDup (map Customers.email l) ->
  List.NoDup (map Customers.customer_id l) ->
  (forall r, In r l -> Customers.email r <> None) ->
  (forall r, In r l ->
     key_taken (Customers.customer_id r) (map c_customer_id tbl) = false) ->
  (forall r e, In r l -> Customers.email r = Some e ->
     ~ In e (map c_email tbl)) ->
  match insert_all insert_customer tbl l with
  | Ok _ => forall r, In r l -> Customers.name r <> None
  | Raised e =>
      e = not_null "customers" "name"
      /\ exists r, In r l /\ Customers.name r = None
  end.
Proof.
  induction l as [|r l IH]; intros tbl Ne Nc Hemail Hid Hmail; simpl.
  - intros r [].
  - apply NoDup_map_cons_inv in Ne, Nc.
    destruct Ne as [Ne Hne], Nc as [Nc Hnc].
    unfold insert_customer at 1.
    destruct (Customers.name r) as [n|] eqn:En;
      [|split; [reflexivity | exists r; split; [now left | exact En]]].
    destruct (Customers.email r) as [e|] eqn:Ee;
      [|exfalso; apply (Hemail r); [now left | exact Ee]].
    rewrite (Hid r) by now left.
    rewrite bool_decide_eq_false_2
      by (rewrite list_elem_of_In; apply (Hmail r e); [now left | exact Ee]).
    set (tbl1 := tbl ++ [mkCustomerRow (Customers.customer_id r) n e]).
    assert (Hid1 : forall r0, In r0 l ->
              key_taken (Customers.customer_id r0) (map c_customer_id tbl1)
              = false).
    { intros r0 Hr0. unfold tbl1. rewrite map_app. simpl.
      apply key_taken_snoc; [apply Hid; now right | now apply Hnc]. }
    assert (Hmail1 : forall r0 e0, In r0 l -> Customers.email r0 = Some e0 ->
              ~ In e0 (map c_email tbl1)).
    { intros r0 e0 Hr0 Ee0. unfold tbl1. rewrite map_app, in_app_iff. simpl.
      intros [Hin | [E | []]].
      - apply (Hmail r0 e0); [now right | assumption | assumption].
      - pose proof (Hne r0 Hr0). congruence. }
    assert (Hemail1 : forall r0, In r0 l -> Customers.email r0 <> None).
    { intros r0 Hr0. apply Hemail. now right. }
    specialize (IH tbl1 Ne Nc Hemail1 Hid1 Hmail1).
    destruct (insert_all insert_customer tbl1 l) as [tbl'|err].
    + intros r' [<- | Hr']; [congruence | now apply IH].
    + destruct IH as (-> & r0 & Hr0 & En0).
      split; [reflexivity|]. exists r0. split; [now right | exact En0].
Qed.

(** The load of a cleaned customers frame raises exactly when a cleaned row
    has no name, with the NOT NULL error of [customers.name], and never for
    a duplicate email or [customer_id]; when it does not raise, the stored
    rows are the cleaned rows. *)
Theorem load_of_cleaned_customers (df : Customers.CustomerFrame) :
  match insert_all insert_customer []
          (Customers.rows (Customers.transform_customers df)) with
  | Ok rc =>
      (forall r, In r (Customers.rows (Customers.transform_customers df)) ->
         Customers.name r <> None)
      /\ Forall2 stored_customer
           (Customers.rows (Customers.transform_customers df)) rc
  | Raised e =>
      e = not_null "customers" "name"
      /\ exists r, In r (Customers.rows (Customers.transform_customers df))
                   /\ Customers.name r = None
  end.
Proof.
  destruct (transform_customers_invariant df) as (Hrows & He & Hc).
  pose proof (insert_all_customers_outcome
                (Customers.rows (Customers.transform_customers df)) []
                He Hc) as Hout.
  destruct (insert_all insert_customer [] _) as [rc|e] eqn:E.
  - split.
    + apply Hout.
      * intros r Hr. destruct (Hrows r Hr) as (e & Ee & _). congruence.
      * intros r Hr. apply key_taken_false_iff. right. intros [].
      * intros r e Hr _ [].
    + exact (load_rows_stored _ _ _ _ insert_customer_Ok E).
  - apply Hout.
    + intros r Hr. destruct (Hrows r Hr) as (e0 & Ee & _). congruence.
    + intros r Hr. apply key_taken_false_iff. right. intros [].
    + intros r e0 Hr _ [].
Qed.

End LoadExtras.

(* ===================================================================== *)
(** ** More about a run of the pipeline *)
(* ===================================================================== *)

Module PipelineExtras.
Import Frame Py Store Pipeline Outcome FrameFacts CustomerFacts ProductExtras
       TransactionClaims TransactionExtras PipelineClaims LoadExtras Scenarios.

Ltac in_listed := repeat (first [left; reflexivity | right]).

Lemma cleaned_price_not_nan `{Pandas} (df : list Products.RawProduct)
    (p : Products.Product) :
  In p (Products.transform_products df) ->
  PrimFloat.is_nan (Products.price p) = false.
Proof.
  rewrite transform_products_unfold. intros Hp.
  apply filter_In in Hp. destruct Hp as [Hp _].
  apply filter_In in Hp. destruct Hp as [_ Hp]. now apply negb_true_iff.
Qed.

Lemma cleaned_product_ids_NoDup `{Pandas} (df : list Products.RawProduct) :
  List.NoDup (map Products.product_id (Products.transform_products df)).
Proof.
  rewrite transform_products_unfold.
  do 2 apply NoDup_map_filter. rewrite map_map.
  apply drop_duplicates_from_keeps_NoDup, drop_duplicates_NoDup.
Qed.

(** A run that returns has printed, for each entity, the PASS line with the
    number of rows that the store now holds for it, the PASS status and the
    completion line: after loads that do not raise, the reconciliation
    cannot fail. *)
Theorem completed_run_reports_pass `{Pandas} (db_path : string)
    (files : result Files) (t : Tables) (w : World) :
  run_pipeline db_path files (start t) = (Ok tt, w) ->
  In (report_line "Customers" (length (customers (disk w)))
        (length (customers (disk w))) true) (stdout w)
  /\ In (report_line "Products" (length (products (disk w)))
           (length (products (disk w))) true) (stdout w)
  /\ In (report_line "Transactions" (length (transactions (disk w)))
           (length (transactions (disk w))) true) (stdout w)
  /\ In (nl +:+ "ETL Pipeline Status: PASS - All data loaded correctly")
        (stdout w)
  /\ In "ETL Pipeline completed!" (stdout w).
Proof.
  destruct files as [f|e]; unfold_pipeline; [|discriminate].
  destruct (Customers.email_column_is_text _); [|discriminate].
  destruct (Products.category_column_is_text _); [|discriminate].
  destruct (Transactions.transform_transactions _) as [tx|e] eqn:Et;
    [|discriminate].
  destruct (insert_all insert_customer [] _) as [rc|e] eqn:Ec; [|discriminate].
  destruct (insert_all insert_product [] _) as [rp|e] eqn:Ep; [|discriminate].
  destruct (insert_all insert_transaction [] _) as [rt|e] eqn:Ex;
    [|discriminate].
  cbv [n_customers n_products n_transactions].
  pose proof (load_rows_stored _ _ _ _ insert_customer_Ok Ec) as Fc.
  pose proof (load_rows_stored _ _ _ _ insert_product_Ok Ep) as Fp.
  pose proof (load_rows_stored _ _ _ _ insert_transaction_Ok Ex) as Fx.
  apply List.Forall2_length in Fc, Fp, Fx. rewrite Fc, Fp, Fx.
  rewrite !Nat.eqb_refl. cbv [andb].
  intros E. injection E as <-. cbv [stdout disk customers products transactions].
  repeat rewrite <- app_assoc. cbn [app].
  repeat split; in_listed.
Qed.

Lemma snoc_snoc {A} (l : list A) (x y : A) : (l ++ [x]) ++ [y] = l ++ [x; y].
Proof. now rewrite <- app_assoc. Qed.

Ltac closed_after_failure :=
  cbn [fst snd]; cbv [connected session disk stdout];
  repeat split; [eexists; reflexivity|];
  intros e E; injection E as <-; eexists; apply snoc_snoc.

(** Whatever happens in a run once [sqlite3.connect] has returned, the
    connection is closed at its end, with no statement left uncommitted,
    and the last line printed is [Database connection closed]; when the run
    raises, the line before it is [ETL Pipeline failed:] with the message
    of the exception.  When [sqlite3.connect] raises, there is no
    connection to close: the run raises that exception, the database file
    is as it was, and the lines printed are the two of the start, [Error
    connecting to database:] and, last, [ETL Pipeline failed:], both with
    the message of the exception. *)
Theorem run_always_closes `{Pandas} (database : Database) (db_path : string)
    (files : result Files) (t : Tables) :
  match connect_raises database with
  | Some e =>
      fst (run_pipeline_on database db_path files (start t)) = Raised e
      /\ connected (snd (run_pipeline_on database db_path files (start t)))
         = false
      /\ disk (snd (run_pipeline_on database db_path files (start t))) = t
      /\ stdout (snd (run_pipeline_on database db_path files (start t)))
         = [ "Starting ETL Pipeline..."; bar;
             "Error connecting to database: " +:+ exn_message e;
             "ETL Pipeline failed: " +:+ exn_message e ]
  | None =>
      connected (snd (run_pipeline_on database db_path files (start t)))
      = false
      /\ session (snd (run_pipeline_on database db_path files (start t)))
         = disk (snd (run_pipeline_on database db_path files (start t)))
      /\ (exists before,
            stdout (snd (run_pipeline_on database db_path files (start t)))
            = before ++ ["Database connection closed"])
      /\ (forall e,
            fst (run_pipeline_on database db_path files (start t)) = Raised e ->
            exists before,
              stdout (snd (run_pipeline_on database db_path files (start t)))
              = before ++ [ "ETL Pipeline failed: " +:+ exn_message e;
                            "Database connection closed" ])
  end.
Proof.
  destruct database as [[ec|] [ed|]].
  - unfold_pipeline. cbn [fst snd]. repeat split.
  - unfold_pipeline. cbn [fst snd]. repeat split.
  - unfold_pipeline. closed_after_failure.
  - destruct files as [f|e0]; unfold_pipeline; [|closed_after_failure].
    destruct (Customers.email_column_is_text _); [|closed_after_failure].
    destruct (Products.category_column_is_text _); [|closed_after_failure].
    destruct (Transactions.transform_transactions _) as [tx|e0] eqn:Et;
      [|closed_after_failure].
    destruct (insert_all insert_customer [] _) as [rc|e0] eqn:Ec;
      [|closed_after_failure].
    destruct (insert_all insert_product [] _) as [rp|e0] eqn:Ep;
      [|closed_after_failure].
    destruct (insert_all insert_transaction [] _) as [rt|e0] eqn:Ex;
      [|closed_after_failure].
    destruct (andb _ _); cbn [fst snd]; cbv [connected session disk stdout];
      (repeat split; [eexists; reflexivity | discriminate]).
Qed.

(** The report of the run on the frames of one customer, one product and
    one transaction. *)
Lemma completed_run_reports_pass_witness :
  In (nl +:+ "ETL Pipeline Status: PASS - All data loaded correctly")
     (stdout (snd (@run_pipeline iso_pandas "healthcare_data.db" good_files
                     (start empty_tables)))).
Proof.
  assert (E : @run_pipeline iso_pandas "healthcare_data.db" good_files
                (start empty_tables)
              = (Ok tt, snd (@run_pipeline iso_pandas "healthcare_data.db"
                               good_files (start empty_tables))))
    by (vm_compute; reflexivity).
  exact (proj1 (proj2 (proj2 (proj2
           (@completed_run_reports_pass iso_pandas "healthcare_data.db"
              good_files empty_tables _ E))))).
Defined.

End PipelineExtras.

(* ===================================================================== *)
(** ** Order, repetition and the generated files *)
(* ===================================================================== *)

Module OrderExtras.
Import Frame Py Products FrameFacts CustomerFacts CustomerExtras ProductClaims
       ProductExtras PipelineExtras Scenarios Reread.

(** Of the raw products that carry one [product_id], only the first in
    input order can be in the cleaned frame: a cleaned product with that
    [product_id] is that first row, standardized and with its price
    coerced. *)
Theorem first_product_id_wins `{Pandas} (df pre post : list RawProduct)
    (first : RawProduct) (p : Product) :
  df = pre ++ first :: post ->
  (forall r, In r pre -> raw_product_id r <> raw_product_id first) ->
  In p (transform_products df) ->
  product_id p = raw_product_id first ->
  p = coerce_price (standardize first).
Proof.
  intros -> Hpre Hp Eid. rewrite transform_products_unfold in Hp.
  apply filter_In in Hp. destruct Hp as [Hp _].
  apply filter_In in Hp. destruct Hp as [Hp _].
  apply in_map_iff in Hp. destruct Hp as (r & <- & Hr). f_equal.
  apply drop_duplicates_In in Hr.
  rewrite map_app in Hr. simpl in Hr.
  apply (drop_duplicates_first_wins raw_product_id
           (map standardize pre) (map standardize post)); [exact Eid | | exact Hr].
  rewrite map_map. simpl. rewrite in_map_iff. intros (x & Ex & Hx).
  now apply (Hpre x Hx).
Qed.

(** The theorem at a batch of two products with one [product_id], whose
    first row has a price in range. *)
Lemma first_product_id_wins_witness :
  mkProduct (Some 1%Z) (Some "Atlas") (Some "Books") 5
  = @coerce_price iso_pandas (standardize named_product).
Proof.
  assert (Hin : In (mkProduct (Some 1%Z) (Some "Atlas") (Some "Books") 5)
                   (@transform_products iso_pandas
                      [named_product; nameless_product]))
    by (vm_compute; left; reflexivity).
  exact (@first_product_id_wins iso_pandas [named_product; nameless_product] []
           [nameless_product] named_product
           (mkProduct (Some 1%Z) (Some "Atlas") (Some "Books") 5)
           eq_refl (fun r (H : In r []) => match H with end) Hin eq_refl).
Defined.

Lemma cleaned_category_fixed `{Pandas} (df : list RawProduct) (p : Product) :
  In p (transform_products df) ->
  standardize_category (category p) = category p.
Proof.
  rewrite transform_products_unfold. intros Hp.
  apply filter_In in Hp. destruct Hp as [Hp _].
  apply filter_In in Hp. destruct Hp as [Hp _].
  apply in_map_iff in Hp. destruct Hp as (r & <- & Hr).
  do 2 apply drop_duplicates_In in Hr.
  apply in_map_iff in Hr. destruct Hr as (r0 & <- & _). simpl.
  apply standardize_category_idempotent.
Qed.

Lemma cleaned_product_pairs_NoDup `{Pandas} (df : list RawProduct) :
  List.NoDup (map (fun p => (name p, category p)) (transform_products df)).
Proof.
  rewrite transform_products_unfold.
  do 2 apply NoDup_map_filter. rewrite map_map. apply drop_duplicates_NoDup.
Qed.

(** Cleaning a cleaned products frame, read again as a raw frame, gives
    the cleaned frame back. *)
Theorem transform_products_idempotent `{Pandas} (df : list RawProduct) :
  transform_products (map raw_of_product (transform_products df))
  = transform_products df.
Proof.
  set (out := transform_products df).
  assert (Hcat : forall p, In p out ->
            standardize_category (category p) = category p)
    by (intros p; apply cleaned_category_fixed).
  assert (Hnan : forall p, In p out -> PrimFloat.is_nan (price p) = false)
    by (intros p; apply cleaned_price_not_nan).
  assert (Hrange : forall p, In p out -> price_in_range (price p) = true).
  { intros p Hp. unfold out in Hp. rewrite transform_products_unfold in Hp.
    now apply filter_In in Hp. }
  pose proof (cleaned_product_ids_NoDup df) as Nid.
  pose proof (cleaned_product_pairs_NoDup df) as Npair. fold out in Nid, Npair.
  rewrite transform_products_unfold.
  assert (Hstd : map standardize (map raw_of_product out) = map raw_of_product out).
  { rewrite map_map. apply map_ext_in. intros p Hp.
    unfold standardize, raw_of_product. simpl. now rewrite (Hcat p Hp). }
  rewrite Hstd. unfold drop_duplicates.
  rewrite (drop_duplicates_from_NoDup_id raw_product_id)
    by (rewrite ?map_map; simpl; auto).
  rewrite (drop_duplicates_from_NoDup_id (fun r => (raw_name r, raw_category r)))
    by (rewrite ?map_map; simpl; auto).
  assert (Hback : map coerce_price (map raw_of_product out) = out).
  { rewrite map_map. rewrite <- (map_id out) at 2. apply map_ext.
    intros [i n c x]. reflexivity. }
  rewrite Hback.
  rewrite (filter_all_true (fun r => negb (PrimFloat.is_nan (price r))))
    by (intros p Hp; now rewrite (Hnan p Hp)).
  now apply filter_all_true.
Qed.

(** Every email that [generate_customers] writes as an invalid pattern is
    dropped by the email filters of [transform_customers]; of the six
    malformed but plausible ones, the two without a top-level label of two
    letters are dropped and the four others are kept. *)
Theorem generated_emails_are_filtered :
  (forall e, In e Generator.invalid_email_choices ->
     forall id n,
       rows (transform_customers (mkCustomerFrame true [mkCustomer id n (Some e)]))
       = [])
  /\ List.filter (fun e => email_ok (mkCustomer None None (Some e)))
       Generator.plausible_email_choices
     = [ "user@example.co.uk"; "user+tag@example.com"; "user.tag@example.com";
         "user_tag@example.com" ]
  /\ List.filter str_match_email Generator.invalid_email_choices
     = [ "user..name@example.com"; "user@example..com"; "user@.example.com";
         "user@-example.com"; "user@example-.com" ].
Proof.
  split; [|split; vm_compute; reflexivity].
  intros e He id n. rewrite transform_customers_rows, valid_emails_filter.
  assert (Hok : email_ok (mkCustomer id n (Some e)) = false).
  { assert (Hb : isin invalid_patterns e = true).
    { unfold isin. apply existsb_exists. exists e.
      split; [exact He | apply String.eqb_refl]. }
    unfold email_ok. cbn [email]. now rewrite Hb. }
  cbn [rows List.filter]. rewrite Hok. reflexivity.
Qed.

(** Every category that [generate_products] writes is standardized to
    [Electronics], [Books] or [Home]. *)
Theorem generated_categories_are_canonicalized :
  Forall (fun c => In (standardize_category (Some c))
                      [Some "Electronics"; Some "Books"; Some "Home"])
         Generator.categories.
Proof.
  unfold Generator.categories.
  repeat (constructor; [vm_compute; tauto|]). constructor.
Qed.

End OrderExtras.
